(** * Smart Scheduler: event store and productivity scorer

    A shallow embedding of [streamlit_app.py]: the rule-based score
    ([clamp], [predict_productivity], the suggestion list of the
    prediction tab) and the session's event list with its handlers
    ([add_event], [events_df], the add, clear and delete buttons, the
    day filter).

    Conventions.
    - A Python [str] is the list of its Unicode code points.
    - A Python [int] is a [Z].  The score is given twice: in exact
      rational arithmetic ([raw_score], [predict_productivity]) and
      with every operation rounded to binary64
      ([predict_productivity_binary64]).  The two agree at every step
      of the four sliders (steps 0.5, 0.5, 1 and 5), where all
      intermediate values are multiples of 1/4, and differ off those
      steps; what is stated of the exact score is stated at the
      steps of the sliders.
    - [st.session_state] is threaded explicitly through a small state
      and exception monad; the notice a handler shows ([st.success],
      [st.error], [st.warning], [st.info]) is the value it returns,
      and an exception that escapes it leaves the state as it was
      when raised.
    - [DataFrame.sort_values] of pandas is a parameter of the
      development: the code calls it with the default [kind]
      (quicksort), for which pandas promises a sorted rearrangement of
      the rows and no more.  What that kind does to rows of equal key
      is read off numpy's argsort ([argsort_quicksort]). *)

From Stdlib Require Import ZArith NArith QArith Qround List Bool Lia Lqa.
From Stdlib Require Import String Ascii Permutation Sorted.
From Stdlib Require Import Floats.
From Stdlib Require Uint63.
Import ListNotations.

Local Open Scope Z_scope.

(* ================================================================= *)
(** * Python strings *)

(** A [str] as the sequence of its code points. *)
Definition str := list N.

(** An ASCII literal as a [str]. *)
Definition lit (s : string) : str :=
  List.map N_of_ascii (list_ascii_of_string s).

Fixpoint str_eqb (a b : str) : bool :=
  match a, b with
  | [], [] => true
  | x :: a', y :: b' => N.eqb x y && str_eqb a' b'
  | _, _ => false
  end.

(** [str.isspace] on one code point: the code points Python's unicode
    database classes as whitespace. *)
Definition isspace (c : N) : bool :=
  ((9 <=? c) && (c <=? 13) || (28 <=? c) && (c <=? 32)
   || (c =? 133) || (c =? 160) || (c =? 5760)
   || (8192 <=? c) && (c <=? 8202)
   || (c =? 8232) || (c =? 8233) || (c =? 8239) || (c =? 8287)
   || (c =? 12288))%N.

Fixpoint lstrip (s : str) : str :=
  match s with
  | [] => []
  | c :: s' => if isspace c then lstrip s' else s
  end.

Definition rstrip (s : str) : str := rev (lstrip (rev s)).

(** [s.strip()]: whitespace removed at both ends. *)
Definition strip (s : str) : str := rstrip (lstrip s).

(** Truth value of a [str]: non-empty. *)
Definition str_truthy (s : str) : bool :=
  match s with [] => false | _ :: _ => true end.

(** No whitespace at either end (the empty string included). *)
Definition trimmed (s : str) : bool :=
  match s, rev s with
  | first :: _, last :: _ => negb (isspace first) && negb (isspace last)
  | _, _ => true
  end.

(* ================================================================= *)
(** * Prediction tab *)

(** [clamp(x, lo=0, hi=100)]: [max(lo, min(hi, x))]. *)
Definition clamp (x lo hi : Z) : Z := Z.max lo (Z.min hi x).

(** Python 3's [round] of a float to an integer: to the nearest, a
    tie to the even neighbour. *)
Definition py_round (x : Q) : Z :=
  let f := Qfloor x in
  match (x - inject_Z f ?= 1 # 2)%Q with
  | Lt => f
  | Gt => f + 1
  | Eq => if Z.even f then f else f + 1
  end.

(** The score before rounding, statement by statement, in exact
    arithmetic: the value the floats of the code hold at every step
    of the sliders. *)
Definition raw_score (sleep_hours focus_hours : Q)
    (workload_level exercise_mins : Z) : Q :=
  let score := 50%Q in
  let score := (score + (sleep_hours - 6) * 6)%Q in
  let score := (score + (focus_hours - 3) * 5)%Q in
  let score := (score - inject_Z ((workload_level - 3) * 7))%Q in
  let score := (score + (inject_Z exercise_mins / 10) * 1.5)%Q in
  score.

Definition predict_productivity (sleep_hours focus_hours : Q)
    (workload_level exercise_mins : Z) : Z :=
  clamp (py_round (raw_score sleep_hours focus_hours
                     workload_level exercise_mins)) 0 100.

Definition Qltb (x y : Q) : bool :=
  match (x ?= y)%Q with Lt => true | _ => false end.

Definition tip_sleep : str := lit "Sleep at least 7 hours.".
Definition tip_focus : str :=
  lit "Plan 1" ++ [8211%N] ++ lit "2 deep work blocks (45"
    ++ [8211%N] ++ lit "60 mins).".
Definition tip_workload : str :=
  lit "Reduce tasks: pick top 3 priorities only.".
Definition tip_exercise : str :=
  lit "Add 15" ++ [8211%N] ++ lit "20 mins walk or workout.".
(** The apostrophe of the source is U+2019. *)
Definition tip_keep : str :=
  lit "Keep the same routine. You" ++ [8217%N] ++ lit "re on track!".

(** The suggestion list built by the predict button: four appends
    guarded one by one, then the fallback on an empty list. *)
Definition quick_suggestions (sleep_hours focus_hours : Q)
    (workload exercise : Z) : list str :=
  let tips := [] in
  let tips := if Qltb sleep_hours 6.5 then tips ++ [tip_sleep] else tips in
  let tips := if Qltb focus_hours 3 then tips ++ [tip_focus] else tips in
  let tips := if 3 <? workload then tips ++ [tip_workload] else tips in
  let tips := if exercise <? 15 then tips ++ [tip_exercise] else tips in
  let tips := if negb (match tips with [] => false | _ => true end)
              then tips ++ [tip_keep] else tips in
  tips.

(** ** The prediction of the specification, in its own words *)

Definition spec_clamp (x lo hi : Z) : Z :=
  if x <? lo then lo else if hi <? x then hi else x.

Definition spec_score (sleepHours focusHours : Q)
    (workloadLevel exerciseMinutes : Z) : Z :=
  spec_clamp
    (py_round (50 + (sleepHours - 6) * 6 + (focusHours - 3) * 5
               - (inject_Z workloadLevel - 3) * 7
               + (inject_Z exerciseMinutes / 10) * 1.5)%Q)
    0 100.

(** The fallback tip as the specification spells it, with U+0027. *)
Definition spec_tip_keep : str :=
  lit "Keep the same routine. You're on track!".

(** The checks of the specification as a table, fired in order;
    [keep] is the tip given when none fires. *)
Definition tips_by_checks (keep : str) (sleepHours focusHours : Q)
    (workloadLevel exerciseMinutes : Z) : list str :=
  let checks :=
    [ (Qltb sleepHours 6.5, tip_sleep);
      (Qltb focusHours 3, tip_focus);
      (workloadLevel >? 3, tip_workload);
      (exerciseMinutes <? 15, tip_exercise) ] in
  match List.map snd (List.filter fst checks) with
  | [] => [keep]
  | fired => fired
  end.

(* ================================================================= *)
(** * Dates and times of Python's [datetime] module *)

Record date := mkdate { year : Z; month : Z; day : Z }.

Record time := mktime
  { hour : Z; minute : Z; second : Z; microsecond : Z }.

Record datetime := mkdatetime
  { dt_year : Z; dt_month : Z; dt_day : Z;
    dt_hour : Z; dt_minute : Z; dt_second : Z; dt_microsecond : Z }.

Definition is_leap (y : Z) : bool :=
  (y mod 4 =? 0) && (negb (y mod 100 =? 0) || (y mod 400 =? 0)).

Definition days_in_month (y m : Z) : Z :=
  if m =? 2 then (if is_leap y then 29 else 28)
  else if (m =? 4) || (m =? 6) || (m =? 9) || (m =? 11) then 30
  else 31.

(** The values a [date] object can hold (MINYEAR = 1, MAXYEAR = 9999). *)
Definition date_ok (d : date) : bool :=
  (1 <=? year d) && (year d <=? 9999)
  && (1 <=? month d) && (month d <=? 12)
  && (1 <=? day d) && (day d <=? days_in_month (year d) (month d)).

(** The values a [time] object can hold. *)
Definition time_ok (t : time) : bool :=
  (0 <=? hour t) && (hour t <? 24)
  && (0 <=? minute t) && (minute t <? 60)
  && (0 <=? second t) && (second t <? 60)
  && (0 <=? microsecond t) && (microsecond t <? 1000000).

(** What [st.time_input] hands back: a time of day to the minute. *)
Definition time_input_ok (t : time) : bool :=
  time_ok t && (second t =? 0) && (microsecond t =? 0).

(** [datetime.combine(d, t)]. *)
Definition combine (d : date) (t : time) : datetime :=
  mkdatetime (year d) (month d) (day d)
             (hour t) (minute t) (second t) (microsecond t).

Definition datetime_ok (x : datetime) : bool :=
  date_ok (mkdate (dt_year x) (dt_month x) (dt_day x))
  && time_ok (mktime (dt_hour x) (dt_minute x) (dt_second x)
                     (dt_microsecond x)).

(** Comparison of naive datetimes: field by field, year first. *)
Definition dt_fields (x : datetime) : list Z :=
  [dt_year x; dt_month x; dt_day x;
   dt_hour x; dt_minute x; dt_second x; dt_microsecond x].

Fixpoint lex_compare (a b : list Z) : comparison :=
  match a, b with
  | [], [] => Eq
  | [], _ :: _ => Lt
  | _ :: _, [] => Gt
  | x :: a', y :: b' =>
      match x ?= y with
      | Eq => lex_compare a' b'
      | c => c
      end
  end.

Definition dt_compare (x y : datetime) : comparison :=
  lex_compare (dt_fields x) (dt_fields y).

Definition dt_leb (x y : datetime) : bool :=
  match dt_compare x y with Gt => false | _ => true end.

Definition dt_ltb (x y : datetime) : bool :=
  match dt_compare x y with Lt => true | _ => false end.

(** ** Formatting *)

Definition digit_char (n : Z) : N := Z.to_N (48 + n).

(** ["%02d"] on 0..99 and ["%04d"] on 0..9999. *)
Definition pad2 (n : Z) : str :=
  [digit_char (n / 10); digit_char (n mod 10)].

Definition pad4 (n : Z) : str :=
  [digit_char (n / 1000); digit_char (n / 100 mod 10);
   digit_char (n / 10 mod 10); digit_char (n mod 10)].

(** [d.isoformat()]: YYYY-MM-DD. *)
Definition isoformat (d : date) : str :=
  pad4 (year d) ++ lit "-" ++ pad2 (month d) ++ lit "-" ++ pad2 (day d).

(** [t.strftime("%H:%M")]. *)
Definition strftime_HM (t : time) : str :=
  pad2 (hour t) ++ lit ":" ++ pad2 (minute t).

(** ** Parsing *)

Definition digit_val (c : N) : option Z :=
  if ((48 <=? c) && (c <=? 57))%N then Some (Z.of_N c - 48) else None.

Fixpoint parse_digits (acc : Z) (s : str) : option Z :=
  match s with
  | [] => Some acc
  | c :: s' =>
      match digit_val c with
      | Some v => parse_digits (10 * acc + v) s'
      | None => None
      end
  end.

Definition parse_int (s : str) : option Z := parse_digits 0 s.

(** [datetime.fromisoformat] on the form the delete handler feeds it,
    YYYY-MM-DD, one separator character, HH:MM:SS.  [None] stands
    for the [ValueError] raised on a malformed string or on field
    values no datetime can hold.  The other forms the library accepts
    (a date alone, fractions of a second, an offset) cannot be built
    from a stored Date, "T", a stored Time and ":00". *)
Definition fromisoformat (s : str) : option datetime :=
  match s with
  | [y1; y2; y3; y4; h1; m1; m2; h2; d1; d2; _;
     H1; H2; c1; M1; M2; c2; S1; S2] =>
      if ((h1 =? 45) && (h2 =? 45) && (c1 =? 58) && (c2 =? 58))%N then
        match parse_int [y1; y2; y3; y4], parse_int [m1; m2],
              parse_int [d1; d2], parse_int [H1; H2],
              parse_int [M1; M2], parse_int [S1; S2] with
        | Some y, Some m, Some d, Some hh, Some mi, Some ss =>
            let x := mkdatetime y m d hh mi ss 0 in
            if datetime_ok x then Some x else None
        | _, _, _, _, _, _ => None
        end
      else None
  | _ => None
  end.

(* ================================================================= *)
(** * The session's events *)

(** One dict of [st.session_state.events]. *)
Record Event := mkEvent
  { Title : str; Date : str; Time : str;
    Duration_min : Z; Notes : str; SortDT : datetime }.

(** One row of the frame [events_df] returns: the columns Title, Date,
    Time, Duration(min) and Notes. *)
Record Row := mkRow
  { col_Title : str; col_Date : str; col_Time : str;
    col_Duration_min : Z; col_Notes : str }.

(** A frame whose index was reset: its rows, label [i] at position [i]. *)
Definition DataFrame := list Row.

Record session_state := mkState { events : list Event }.

(** [init_state] on a fresh session. *)
Definition init_state : session_state := mkState [].

(** The specification's [count]. *)
Definition count (st : session_state) : Z :=
  Z.of_nat (List.length (events st)).

(** ** State and exceptions *)

Inductive exn := KeyError | ValueError.

Inductive notice :=
| st_success (msg : str)
| st_error (msg : str)
| st_warning (msg : str)
| st_info (msg : str).

(** A computation over the session state that returns or raises. *)
Definition M (A : Type) : Type :=
  session_state -> (A + exn) * session_state.

Definition ret {A} (a : A) : M A := fun st => (inl a, st).

Definition raise {A} (e : exn) : M A := fun st => (inr e, st).

Definition bind {A B} (m : M A) (k : A -> M B) : M B :=
  fun st =>
    match m st with
    | (inl a, st') => k a st'
    | (inr e, st') => (inr e, st')
    end.

Definition get : M session_state := fun st => (inl st, st).

Definition put (st' : session_state) : M unit := fun _ => (inl tt, st').

Notation "x <- m ;; k" := (bind m (fun x => k))
  (at level 61, m at next level, right associativity).

Definition of_option {A} (e : exn) (o : option A) : M A :=
  match o with Some a => ret a | None => raise e end.

(** The state a computation leaves, and what it returns. *)
Definition exec {A} (m : M A) (st : session_state) : session_state :=
  snd (m st).

Definition result {A} (m : M A) (st : session_state) : A + exn :=
  fst (m st).

(** ** Adding *)

Definition add_event (title : str) (event_date : date) (event_time : time)
    (duration_mins : Z) (notes : str) : M unit :=
  let dt := combine event_date event_time in
  st <- get ;;
  put (mkState (events st ++
    [ {| Title := strip title;
         Date := isoformat event_date;
         Time := strftime_HM event_time;
         Duration_min := duration_mins;
         Notes := strip notes;
         SortDT := dt |} ])).

Definition add_btn_handler (title : str) (event_date : date)
    (event_time : time) (duration : Z) (notes : str) : M notice :=
  if negb (str_truthy (strip title)) then
    ret (st_error (lit "Please enter an event title."))
  else
    _ <- add_event title event_date event_time duration notes ;;
    ret (st_success (lit "Event added!")).

Definition clear_btn_handler : M notice :=
  _ <- put (mkState []) ;;
  ret (st_warning (lit "All events cleared.")).

(** ** Listing *)

Definition drop_SortDT (e : Event) : Row :=
  mkRow (Title e) (Date e) (Time e) (Duration_min e) (Notes e).

Definition df_empty (df : DataFrame) : bool :=
  match df with [] => true | _ :: _ => false end.

Definition le_SortDT (a b : Event) : Prop :=
  dt_leb (SortDT a) (SortDT b) = true.

(** What pandas promises of [df.sort_values("SortDT")] under the
    default [kind]: the same rows, in non-decreasing order of the
    column. *)
Definition sorts_by_SortDT (sort : list Event -> list Event) : Prop :=
  forall l, Permutation (sort l) l /\ StronglySorted le_SortDT (sort l).

(** A sort that keeps the promise, for the instances: the rows are
    inserted one by one from the last, each before the rows of equal
    key already placed. *)
Fixpoint insert_by (before : Event -> Event -> bool) (x : Event)
    (l : list Event) : list Event :=
  match l with
  | [] => [x]
  | y :: l' => if before x y then x :: l else y :: insert_by before x l'
  end.

Definition sort_by (before : Event -> Event -> bool) (l : list Event)
    : list Event :=
  List.fold_right (insert_by before) [] l.

Definition stable_sort : list Event -> list Event :=
  sort_by (fun x y => dt_leb (SortDT x) (SortDT y)).


(** Row [i] gone, as [df.drop(index=i).reset_index(drop=True)] leaves
    the frame when label [i] exists. *)
Definition remove_at {A} (i : nat) (df : list A) : list A :=
  firstn i df ++ skipn (S i) df.

(** [df.drop(index=idx)]: a label the index lacks raises [KeyError]. *)
Definition drop_index (df : DataFrame) (idx : Z) : M DataFrame :=
  if (0 <=? idx) && (idx <? Z.of_nat (List.length df)) then
    ret (remove_at (Z.to_nat idx) df)
  else raise KeyError.

(** The datetime the delete handler rebuilds from a row. *)
Definition row_datetime (r : Row) : option datetime :=
  fromisoformat (col_Date r ++ lit "T" ++ col_Time r ++ lit ":00").

(** The loop over [df2.iterrows()], appending to [rebuilt]. *)
Fixpoint rebuild_loop (rows : list Row) (rebuilt : list Event)
    : M (list Event) :=
  match rows with
  | [] => ret rebuilt
  | r :: rows' =>
      dt <- of_option ValueError (row_datetime r) ;;
      rebuild_loop rows'
        (rebuilt ++
           [ {| Title := col_Title r;
                Date := col_Date r;
                Time := col_Time r;
                Duration_min := col_Duration_min r;
                Notes := col_Notes r;
                SortDT := dt |} ])
  end.

(** The day filter of the agenda. *)
Definition df_day (filter_day : date) (df : DataFrame) : DataFrame :=
  if negb (df_empty df) then
    List.filter (fun r => str_eqb (col_Date r) (isoformat filter_day)) df
  else df.

(** The body of [if del_btn:], on the frame [df] of the current run. *)
Definition del_btn_handler (df : DataFrame) (idx : Z) : M notice :=
  df2 <- drop_index df idx ;;
  rebuilt <- rebuild_loop df2 [] ;;
  _ <- put (mkState rebuilt) ;;
  ret (st_success (lit "Deleted!")).

(** Truth value of a list: non-empty. *)
Definition list_truthy {A} (l : list A) : bool :=
  match l with [] => false | _ :: _ => true end.

(** What one run of the script can do to the store: one button, with
    the values of its widgets. *)
Inductive action :=
| PressAdd (title : str) (event_date : date) (event_time : time)
           (duration : Z) (notes : str)
| PressClear
| PressDelete (idx : Z).

(** The values the widgets can deliver: a date, a time to the minute,
    a duration within the bounds of its number input. *)
Definition action_ok (a : action) : bool :=
  match a with
  | PressAdd _ d t duration _ =>
      date_ok d && time_input_ok t && (5 <=? duration) && (duration <=? 600)
  | PressClear => true
  | PressDelete _ => true
  end.

Section Scheduler.

(** [DataFrame.sort_values] on the SortDT column. *)
Variable sort_values : list Event -> list Event.

Definition events_df : M DataFrame :=
  st <- get ;;
  if negb (list_truthy (events st)) then ret []
  else
    let df := events st in
    let df := sort_values df in
    ret (List.map drop_SortDT df).

(** The operations of the specification, on the handlers. *)
Definition listAll : M DataFrame := events_df.

Definition listForDate (d : date) : M DataFrame :=
  df <- events_df ;;
  ret (df_day d df).

Definition deleteAt (sortedIndex : Z) : M notice :=
  df <- events_df ;;
  del_btn_handler df sortedIndex.

(** One run of the script.  The delete section is drawn only under
    a non-empty frame. *)
Definition run_action (a : action) : M notice :=
  match a with
  | PressAdd title d t duration notes =>
      add_btn_handler title d t duration notes
  | PressClear => clear_btn_handler
  | PressDelete idx =>
      df <- events_df ;;
      if df_empty df then ret (st_info (lit "No events yet."))
      else del_btn_handler df idx
  end.

(** The stores a session can be in. *)
Inductive reachable : session_state -> Prop :=
| reach_init : reachable init_state
| reach_step a st :
    reachable st -> action_ok a = true ->
    reachable (exec (run_action a) st).

(** Several runs in a row. *)
Definition run_actions (acts : list action) (st : session_state)
  : session_state :=
  List.fold_left (fun s a => exec (run_action a) s) acts st.

End Scheduler.

(* ================================================================= *)
(** * Predicates of the statements *)

(** An event as [add_event] stores it for a date and a time to the
    minute: the two strings and the sort key all come from them. *)
Definition event_wf (e : Event) : Prop :=
  exists d t,
    date_ok d = true /\ time_input_ok t = true
    /\ Date e = isoformat d /\ Time e = strftime_HM t
    /\ SortDT e = combine d t.

(** The sort key is what parsing the stored strings gives back. *)
Definition key_recoverable (e : Event) : Prop :=
  row_datetime (drop_SortDT e) = Some (SortDT e).

Definition title_notes_trimmed (e : Event) : Prop :=
  trimmed (Title e) = true /\ trimmed (Notes e) = true.

(** Rows in non-decreasing order of (date, time), read off the rows. *)
Definition row_le (a b : Row) : Prop :=
  exists x y,
    row_datetime a = Some x /\ row_datetime b = Some y
    /\ dt_leb x y = true.

(** The date of a row is [d]. *)
Definition row_on_date (d : date) (r : Row) : bool :=
  match row_datetime r with
  | Some x =>
      (dt_year x =? year d) && (dt_month x =? month d)
      && (dt_day x =? day d)
  | None => false
  end.

(** Events of equal sort key show in the frame in the order they have
    in the store. *)
Definition tie_order_kept (evs : list Event) (df : DataFrame) : Prop :=
  forall i j a b,
    (i < j)%nat ->
    nth_error evs i = Some a -> nth_error evs j = Some b ->
    SortDT a = SortDT b ->
    exists i' j',
      (i' < j')%nat
      /\ nth_error df i' = Some (drop_SortDT a)
      /\ nth_error df j' = Some (drop_SortDT b).

(** Empty or nothing but whitespace. *)
Definition blank (s : str) : bool := forallb isspace s.

(** What every store of a session satisfies. *)
Definition store_inv (st : session_state) : Prop :=
  Forall event_wf (events st) /\ Forall title_notes_trimmed (events st).

(** A day and an hour for the examples. *)
Definition pi_day : date := mkdate 2025 3 14.
Definition nine : time := mktime 9 0 0 0.

(** Two events at the same date and time, "A" added before "B". *)
Definition add_A_then_B : list action :=
  [ PressAdd (lit "A") pi_day nine 30 [];
    PressAdd (lit "B") pi_day nine 30 [] ].

(** The store after these two runs. *)
Definition two_events : session_state :=
  run_actions stable_sort add_A_then_B init_state.

(* ================================================================= *)
(** * The score banner and the widgets of the delete section *)

(** The banner under the score: [if score >= 80], [elif score >= 60],
    [else]. *)
Definition banner (score : Z) : notice :=
  if score >=? 80 then
    st_success
      (lit "Excellent! Tomorrow looks highly productive " ++ [9989%N])
  else if score >=? 60 then
    st_warning (lit "Good, but can be improved " ++ [128161%N])
  else
    st_error
      (lit "High risk of low productivity " ++ [10060%N]
         ++ lit " Try improving sleep/focus/exercise.").

(** The bounds of the row number input of the delete section:
    [min_value=0], [max_value=max(len(df) - 1, 0)]. *)
Definition idx_input_ok (df : DataFrame) (idx : Z) : bool :=
  (0 <=? idx) && (idx <=? Z.max (Z.of_nat (List.length df) - 1) 0).

(** A time of day with its seconds and microseconds dropped. *)
Definition to_the_minute (t : time) : time :=
  mktime (hour t) (minute t) 0 0.

(** The bounds of the duration number input. *)
Definition duration_in_bounds (e : Event) : Prop :=
  5 <= Duration_min e <= 600.

(** The row an add shows: what [add_event] stores, without the sort
    key. *)
Definition new_row (title : str) (d : date) (t : time) (duration : Z)
    (notes : str) : Row :=
  mkRow (strip title) (isoformat d) (strftime_HM t) duration (strip notes).

(* ================================================================= *)
(** * The score in binary64 *)

(** The sliders of the prediction tab: hours in steps of 0.5 from 0.0,
    minutes in steps of 5 from 0; [k] counts the steps. *)
Definition slider_hours (k : Z) : Q := (inject_Z k * 0.5)%Q.

Definition slider_minutes (k : Z) : Z := 5 * k.

(** [float(z)] for an integer below 2^53 in magnitude, where the
    conversion is exact. *)
Definition float_of_int (z : Z) : float :=
  if z <? 0 then PrimFloat.opp (PrimFloat.of_uint63 (Uint63.of_Z (- z)))
  else PrimFloat.of_uint63 (Uint63.of_Z z).

(** The value of a finite float as a rational. *)
Definition float_value (x : float) : option Q :=
  match Prim2SF x with
  | S754_zero _ => Some 0%Q
  | S754_finite s m e =>
      let mag :=
        if 0 <=? e then inject_Z (Z.pos m * 2 ^ e)
        else (Z.pos m # Pos.pow 2 (Z.to_pos (- e)))%Q in
      Some (if s then (- mag)%Q else mag)
  | S754_infinity _ | S754_nan => None
  end.

(** [int(round(x))] on a float: the nearest integer of its value, a
    tie to the even one; [None] for the error raised on an infinity
    or a NaN. *)
Definition round_float (x : float) : option Z :=
  option_map py_round (float_value x).

(** [predict_productivity] as Python computes it, every operation
    rounded to binary64.  The two integers are converted as they meet
    a float; [None] stands for the error of [round], and for integers
    of 2^53 or more, which this model leaves out. *)
Definition predict_productivity_binary64 (sleep_hours focus_hours : float)
    (workload_level exercise_mins : Z) : option Z :=
  if (Z.abs workload_level <? 2 ^ 50) && (Z.abs exercise_mins <? 2 ^ 53)
  then
    let score := float_of_int 50 in
    let score :=
      (score + (sleep_hours - float_of_int 6) * float_of_int 6)%float in
    let score :=
      (score + (focus_hours - float_of_int 3) * float_of_int 5)%float in
    let score :=
      (score - float_of_int ((workload_level - 3) * 7))%float in
    let score :=
      (score + (float_of_int exercise_mins / float_of_int 10) * 1.5)%float in
    option_map (fun r => clamp r 0 100) (round_float score)
  else None.

(** The float a slider of hours hands over at step [k]. *)
Definition slider_hours_binary64 (k : Z) : float :=
  (float_of_int k * 0.5)%float.

(** All steps of the four sliders. *)
Definition hour_steps : list Z := List.map Z.of_nat (seq 0 21).
Definition workload_steps : list Z := List.map Z.of_nat (seq 1 5).
Definition minute_steps : list Z := List.map Z.of_nat (seq 0 25).

(** The binary64 score and the exact one agree at a step. *)
Definition agree_at (a b w c : Z) : bool :=
  match predict_productivity_binary64
          (slider_hours_binary64 a) (slider_hours_binary64 b)
          w (slider_minutes c) with
  | Some r =>
      r =? predict_productivity (slider_hours a) (slider_hours b)
             w (slider_minutes c)
  | None => false
  end.

(* ================================================================= *)
(** * numpy's argsort of kind quicksort *)

(** [df.sort_values("SortDT")] leaves the [kind] at its default,
    quicksort: pandas asks numpy for the argsort of the column with
    that kind and takes the rows in the order of the indexer.  For a
    datetime column numpy runs its introsort on an index array
    [tosort] that starts as 0, 1, ..., n-1: segments of more than
    [SMALL_QUICKSORT] + 1 entries are partitioned around the median
    of three, shorter ones are finished by insertion sort, and a
    segment whose depth budget is used up goes to heapsort.  Pointers
    into [tosort] are positions, [v] is the column, [less] the
    comparison of two of its values, none of them NaT. *)
Definition SMALL_QUICKSORT : nat := 16.

Definition less (x y : datetime) : bool := dt_ltb x y.

Definition key (v : list datetime) (i : nat) : datetime :=
  nth i v (mkdatetime 0 0 0 0 0 0 0).

(** [*p] and [*p = x]. *)
Definition deref (tosort : list nat) (p : nat) : nat := nth p tosort 0%nat.

Definition assign (tosort : list nat) (p x : nat) : list nat :=
  firstn p tosort ++ x :: skipn (S p) tosort.

Definition INTP_SWAP (tosort : list nat) (p q : nat) : list nat :=
  assign (assign tosort p (deref tosort q)) q (deref tosort p).

(** [do { ++pi; } while (less(v[*pi], vp));] *)
Fixpoint scan_up (fuel : nat) (v : list datetime) (tosort : list nat)
    (vp : datetime) (pi : nat) : nat :=
  match fuel with
  | O => pi
  | S fuel' =>
      let pi := S pi in
      if less (key v (deref tosort pi)) vp
      then scan_up fuel' v tosort vp pi else pi
  end.

(** [do { --pj; } while (less(vp, v[*pj]));] *)
Fixpoint scan_down (fuel : nat) (v : list datetime) (tosort : list nat)
    (vp : datetime) (pj : nat) : nat :=
  match fuel with
  | O => pj
  | S fuel' =>
      let pj := Nat.pred pj in
      if less vp (key v (deref tosort pj))
      then scan_down fuel' v tosort vp pj else pj
  end.

(** The [for (;;)] of the partition: scan, stop when the pointers
    meet, else swap and go on. *)
Fixpoint partition_loop (fuel : nat) (v : list datetime)
    (tosort : list nat) (vp : datetime) (pi pj : nat) : list nat * nat :=
  match fuel with
  | O => (tosort, pi)
  | S fuel' =>
      let pi := scan_up (List.length tosort) v tosort vp pi in
      let pj := scan_down (List.length tosort) v tosort vp pj in
      if (pj <=? pi)%nat then (tosort, pi)
      else partition_loop fuel' v (INTP_SWAP tosort pi pj) vp pi pj
  end.

(** One partition of the segment [pl .. pr]: median of three to the
    middle, pivot parked at [pr - 1], the scans, pivot to its place
    [pi]. *)
Definition partition (v : list datetime) (tosort : list nat) (pl pr : nat)
    : list nat * nat :=
  let pm := (pl + Nat.div2 (pr - pl))%nat in
  let tosort :=
    if less (key v (deref tosort pm)) (key v (deref tosort pl))
    then INTP_SWAP tosort pm pl else tosort in
  let tosort :=
    if less (key v (deref tosort pr)) (key v (deref tosort pm))
    then INTP_SWAP tosort pr pm else tosort in
  let tosort :=
    if less (key v (deref tosort pm)) (key v (deref tosort pl))
    then INTP_SWAP tosort pm pl else tosort in
  let vp := key v (deref tosort pm) in
  let pi := pl in
  let pj := (pr - 1)%nat in
  let tosort := INTP_SWAP tosort pm pj in
  let '(tosort, pi) :=
    partition_loop (List.length tosort) v tosort vp pi pj in
  let pk := (pr - 1)%nat in
  (INTP_SWAP tosort pi pk, pi).

(** A segment put aside with the depth budget it is to be sorted
    under. *)
Definition segment : Type := nat * nat * Z.

(** [while ((pr - pl) > SMALL_QUICKSORT)]: partition, push the larger
    part, go on with the smaller. *)
Fixpoint partition_while (fuel : nat) (v : list datetime)
    (tosort : list nat) (pl pr : nat) (stack : list segment) (cdepth : Z)
    : list nat * nat * nat * list segment :=
  match fuel with
  | O => (tosort, pl, pr, stack)
  | S fuel' =>
      if (SMALL_QUICKSORT <? pr - pl)%nat then
        let '(tosort, pi) := partition v tosort pl pr in
        let cdepth := cdepth - 1 in
        if (pi - pl <? pr - pi)%nat then
          partition_while fuel' v tosort pl (pi - 1)%nat
            ((S pi, pr, cdepth) :: stack) cdepth
        else
          partition_while fuel' v tosort (S pi) pr
            ((pl, (pi - 1)%nat, cdepth) :: stack) cdepth
      else (tosort, pl, pr, stack)
  end.

(** [while (pj > pl && less(vp, v[*pk])) { *pj-- = *pk--; }] *)
Fixpoint shift_up (fuel : nat) (v : list datetime) (tosort : list nat)
    (vp : datetime) (pl pj : nat) : list nat * nat :=
  match fuel with
  | O => (tosort, pj)
  | S fuel' =>
      let pk := Nat.pred pj in
      if (pl <? pj)%nat && less vp (key v (deref tosort pk)) then
        shift_up fuel' v (assign tosort pj (deref tosort pk)) vp pl pk
      else (tosort, pj)
  end.

(** The insertion sort of the segment [pl .. pr], from [pi] on. *)
Fixpoint insertion_from (fuel : nat) (v : list datetime)
    (tosort : list nat) (pl pi pr : nat) : list nat :=
  match fuel with
  | O => tosort
  | S fuel' =>
      if (pi <=? pr)%nat then
        let vi := deref tosort pi in
        let vp := key v vi in
        let '(tosort, pj) :=
          shift_up (List.length tosort) v tosort vp pl pi in
        insertion_from fuel' v (assign tosort pj vi) pl (S pi) pr
      else tosort
  end.

(** The outer [while (1)].  [None] where the depth budget of a
    segment is used up and numpy turns to heapsort, which is left out
    of this model, or where the fuel ends. *)
Fixpoint aquicksort_loop (fuel : nat) (v : list datetime)
    (tosort : list nat) (pl pr : nat) (stack : list segment) (cdepth : Z)
    : option (list nat) :=
  match fuel with
  | O => None
  | S fuel' =>
      if cdepth <? 0 then None
      else
        let '(tosort, pl, pr, stack) :=
          partition_while (List.length tosort) v tosort pl pr stack cdepth in
        let tosort :=
          insertion_from (List.length tosort) v tosort pl (S pl) pr in
        match stack with
        | [] => Some tosort
        | (pl', pr', cdepth') :: stack' =>
            aquicksort_loop fuel' v tosort pl' pr' stack' cdepth'
        end
  end.

(** [v.argsort(kind="quicksort")]: the index array starts as
    [arange(n)], the depth budget as twice the position of the top
    bit of [n]. *)
Definition argsort_quicksort (v : list datetime) : option (list nat) :=
  let num := List.length v in
  aquicksort_loop (S num) v (seq 0 num) 0 (num - 1)
    [] (2 * Z.of_nat (Nat.log2 num)).

(** [df.take(indexer)]: the rows in the order of the indexer. *)
Definition take (indexer : list nat) (df : list Event) : list Event :=
  List.flat_map
    (fun i => match nth_error df i with Some e => [e] | None => [] end)
    indexer.

(** Twenty adds for the same date and time, titled E00 to E19 in the
    order they are made, and the store after them. *)
Definition twenty_adds : list action :=
  List.map
    (fun k => PressAdd (lit "E" ++ pad2 (Z.of_nat k)) pi_day nine 30 [])
    (seq 0 20).

Definition twenty_events : session_state :=
  run_actions stable_sort twenty_adds init_state.

(* ================================================================= *)
(** * Properties of the prediction tab *)

Lemma py_round_comp (x y : Q) : (x == y)%Q -> py_round x = py_round y.
Proof.
  intros E. unfold py_round.
  rewrite (Qfloor_comp x y E).
  assert (C : ((x - inject_Z (Qfloor y) ?= 1 # 2)
               = (y - inject_Z (Qfloor y) ?= 1 # 2))%Q)
    by (rewrite E; reflexivity).
  rewrite C. reflexivity.
Qed.

Lemma clamp_spec_clamp (x lo hi : Z) :
  lo <= hi -> clamp x lo hi = spec_clamp x lo hi.
Proof.
  intros L. unfold clamp, spec_clamp.
  destruct (Z.ltb_spec x lo), (Z.ltb_spec hi x); lia.
Qed.

Lemma clamp_bounds (x lo hi : Z) : lo <= hi -> lo <= clamp x lo hi <= hi.
Proof. unfold clamp. lia. Qed.

Lemma raw_score_formula (s f : Q) (w e : Z) :
  (raw_score s f w e ==
   50 + (s - 6) * 6 + (f - 3) * 5 - (inject_Z w - 3) * 7
   + (inject_Z e / 10) * 1.5)%Q.
Proof.
  unfold raw_score. cbv zeta.
  rewrite inject_Z_mult.
  unfold Z.sub. rewrite inject_Z_plus.
  change (inject_Z (- (3))) with (- (3))%Q.
  change (inject_Z 7) with 7%Q.
  ring.
Qed.

(** On the sliders' grid (half hours, workload steps of one, five
    minutes of exercise) the score before rounding is a whole number
    of quarters. *)
Lemma raw_score_on_grid (a b w c : Z) :
  (raw_score (inject_Z a / 2) (inject_Z b / 2) w (5 * c) ==
   inject_Z (4 * 50 + 12 * (a - 12) + 10 * (b - 6) - 28 * (w - 3) + 3 * c)
   / 4)%Q.
Proof.
  rewrite raw_score_formula.
  unfold Z.sub.
  repeat (rewrite inject_Z_plus || rewrite inject_Z_mult
          || rewrite inject_Z_opp).
  change (inject_Z 4) with 4%Q. change (inject_Z 50) with 50%Q.
  change (inject_Z 12) with 12%Q. change (inject_Z 10) with 10%Q.
  change (inject_Z 28) with 28%Q. change (inject_Z 3) with 3%Q.
  change (inject_Z 5) with 5%Q. change (inject_Z 6) with 6%Q.
  setoid_replace 1.5%Q with (3 # 2)%Q by reflexivity.
  field.
Qed.

(** C3: at every step of the four sliders [predict_productivity] is
    the specification's formula, rounded and then clamped to 0..100;
    the three boundary cases of the specification evaluate to 64, 0
    (from -15) and 100 (from 141), and scores with a fraction go to
    the nearest integer, a tie to the even one. *)
Theorem C3_predict_is_round_then_clamp (a b w c : Z) :
  0 <= a <= 20 -> 0 <= b <= 20 -> 1 <= w <= 5 -> 0 <= c <= 24 ->
  predict_productivity (slider_hours a) (slider_hours b) w (slider_minutes c)
  = spec_score (slider_hours a) (slider_hours b) w (slider_minutes c)
  /\ predict_productivity 7 4 3 20 = 64
  /\ (py_round (raw_score 0 0 5 0) = -15
      /\ predict_productivity 0 0 5 0 = 0)
  /\ (py_round (raw_score 10 10 1 120) = 141
      /\ predict_productivity 10 10 1 120 = 100)
  /\ (predict_productivity 6 3 3 5 = 51
      /\ predict_productivity 6 3 3 15 = 52
      /\ predict_productivity 6 3.5 3 0 = 52
      /\ predict_productivity 6.5 3.5 3 0 = 56).
Proof.
  intros _ _ _ _. split; [| repeat split; reflexivity].
  unfold predict_productivity, spec_score.
  rewrite clamp_spec_clamp by lia.
  f_equal. apply py_round_comp, raw_score_formula.
Qed.

Lemma C3_predict_is_round_then_clamp_witness :
  predict_productivity (slider_hours 13) (slider_hours 7) 4 (slider_minutes 3)
  = spec_score (slider_hours 13) (slider_hours 7) 4 (slider_minutes 3)
  /\ predict_productivity 7 4 3 20 = 64
  /\ (py_round (raw_score 0 0 5 0) = -15
      /\ predict_productivity 0 0 5 0 = 0)
  /\ (py_round (raw_score 10 10 1 120) = 141
      /\ predict_productivity 10 10 1 120 = 100)
  /\ (predict_productivity 6 3 3 5 = 51
      /\ predict_productivity 6 3 3 15 = 52
      /\ predict_productivity 6 3.5 3 0 = 52
      /\ predict_productivity 6.5 3.5 3 0 = 56).
Proof.
  apply (C3_predict_is_round_then_clamp 13 7 4 3); lia.
Defined.

(** C8: on the documented ranges of the four inputs the score is an
    integer between 0 and 100. *)
Theorem C8_score_in_0_100 (s f : Q) (w e : Z) :
  (0 <= s <= 10)%Q -> (0 <= f <= 10)%Q -> 1 <= w <= 5 -> 0 <= e <= 120 ->
  0 <= predict_productivity s f w e <= 100.
Proof.
  intros _ _ _ _. unfold predict_productivity. apply clamp_bounds. lia.
Qed.

Lemma C8_score_in_0_100_witness :
  0 <= predict_productivity 7.5 4 3 20 <= 100.
Proof.
  apply (C8_score_in_0_100 7.5 4 3 20).
  - unfold Qle; simpl; lia.
  - unfold Qle; simpl; lia.
  - lia.
  - lia.
Defined.

(** C4, as the specification words it: the fallback tip is spelled
    with the ASCII apostrophe, the source spells it with U+2019, so on
    the baseline input, where no check fires, the two lists differ. *)
Lemma C4_counterexample :
  quick_suggestions 7 4 3 20 <> tips_by_checks spec_tip_keep 7 4 3 20.
Proof. vm_compute. discriminate. Qed.

(** C4, amended: the suggestion list is the tips of the four checks
    that fire, each check evaluated on its own and in the listed
    order, and the single fallback tip of the source (apostrophe
    U+2019) when none fires. *)
Theorem C4_tips_by_checks (s f : Q) (w e : Z) :
  quick_suggestions s f w e = tips_by_checks tip_keep s f w e.
Proof.
  unfold quick_suggestions, tips_by_checks. cbv zeta.
  rewrite Z.gtb_ltb.
  destruct (Qltb s 6.5), (Qltb f 3), (3 <? w), (e <? 15); reflexivity.
Qed.

(* ================================================================= *)
(** * Strings *)

Lemma str_eqb_eq (a b : str) : str_eqb a b = true <-> a = b.
Proof.
  revert b. induction a as [|x a IH]; intros [|y b]; simpl; split;
    try discriminate; try reflexivity.
  - intros H. apply andb_true_iff in H as [H1 H2].
    apply N.eqb_eq in H1. apply IH in H2. congruence.
  - intros H. injection H as -> ->. rewrite N.eqb_refl. simpl. now apply IH.
Qed.

Lemma lstrip_head (s : str) c r : lstrip s = c :: r -> isspace c = false.
Proof.
  induction s as [|x s IH]; simpl; [discriminate|].
  destruct (isspace x) eqn:E; [exact IH|].
  intros H. injection H as -> _. exact E.
Qed.

Lemma lstrip_suffix (s : str) : exists p, s = p ++ lstrip s.
Proof.
  induction s as [|x s [p IH]]; simpl.
  - exists []. reflexivity.
  - destruct (isspace x).
    + exists (x :: p). simpl. now f_equal.
    + exists []. reflexivity.
Qed.

Lemma lstrip_nil_iff (s : str) : lstrip s = [] <-> blank s = true.
Proof.
  unfold blank. induction s as [|x s IH]; simpl; [tauto|].
  destruct (isspace x); simpl; [exact IH|]. split; discriminate.
Qed.

Lemma blank_rev (s : str) : blank (rev s) = blank s.
Proof.
  unfold blank. induction s as [|x s IH]; simpl; [reflexivity|].
  rewrite forallb_app, IH. simpl. rewrite andb_true_r. apply andb_comm.
Qed.

Lemma lstrip_blank_nil (s : str) : blank (lstrip s) = true -> lstrip s = [].
Proof.
  destruct (lstrip s) as [|c r] eqn:E; [reflexivity|].
  apply lstrip_head in E. unfold blank. simpl. rewrite E. discriminate.
Qed.

Lemma strip_nil_iff (s : str) : strip s = [] <-> blank s = true.
Proof.
  unfold strip, rstrip. split.
  - intros H. apply (f_equal (@rev N)) in H. rewrite rev_involutive in H.
    simpl in H. apply lstrip_nil_iff in H. rewrite blank_rev in H.
    apply lstrip_blank_nil in H. now apply lstrip_nil_iff.
  - intros H. apply lstrip_nil_iff in H. rewrite H. reflexivity.
Qed.

Lemma strip_trimmed (s : str) : trimmed (strip s) = true.
Proof.
  unfold strip, rstrip, trimmed.
  set (u := lstrip s).
  destruct (lstrip_suffix (rev u)) as [p Hp].
  destruct (rev (lstrip (rev u))) as [|first l] eqn:E1; [reflexivity|].
  rewrite <- E1, rev_involutive.
  apply (f_equal (@rev N)) in Hp.
  rewrite rev_involutive, rev_app_distr, E1 in Hp. simpl in Hp.
  unfold u in Hp. apply lstrip_head in Hp. rewrite Hp.
  fold u.
  destruct (lstrip (rev u)) as [|c v] eqn:Ev; [reflexivity|].
  apply lstrip_head in Ev. rewrite Ev. reflexivity.
Qed.

(* ================================================================= *)
(** * The order of datetimes *)

Lemma lex_compare_antisym (a b : list Z) :
  lex_compare b a = CompOpp (lex_compare a b).
Proof.
  revert b. induction a as [|x a IH]; intros [|y b]; simpl; try reflexivity.
  rewrite (Z.compare_antisym x y).
  destruct (x ?= y); simpl; auto.
Qed.

Lemma lex_compare_le_trans (a b c : list Z) :
  lex_compare a b <> Gt -> lex_compare b c <> Gt -> lex_compare a c <> Gt.
Proof.
  revert b c. induction a as [|x a IH]; intros [|y b] [|z c]; simpl;
    try congruence.
  destruct (Z.compare_spec x y) as [-> | Hxy | Hxy]; try congruence.
  - destruct (Z.compare_spec y z) as [-> | Hyz | Hyz]; try congruence.
    apply IH.
  - intros _.
    destruct (Z.compare_spec y z) as [-> | Hyz | Hyz]; try congruence;
      intros _.
    + rewrite (proj2 (Z.compare_lt_iff x z)) by lia. discriminate.
    + rewrite (proj2 (Z.compare_lt_iff x z)) by lia. discriminate.
Qed.

Lemma dt_leb_total (x y : datetime) :
  dt_leb x y = false -> dt_leb y x = true.
Proof.
  unfold dt_leb, dt_compare.
  rewrite (lex_compare_antisym (dt_fields x) (dt_fields y)).
  destruct (lex_compare (dt_fields x) (dt_fields y)); simpl; congruence.
Qed.

Lemma dt_leb_trans (x y z : datetime) :
  dt_leb x y = true -> dt_leb y z = true -> dt_leb x z = true.
Proof.
  unfold dt_leb, dt_compare. intros H1 H2.
  pose proof (lex_compare_le_trans (dt_fields x) (dt_fields y) (dt_fields z))
    as T.
  destruct (lex_compare (dt_fields x) (dt_fields y)); try discriminate;
    destruct (lex_compare (dt_fields y) (dt_fields z)); try discriminate;
    destruct (lex_compare (dt_fields x) (dt_fields z)); try reflexivity;
    exfalso; apply T; congruence.
Qed.

(** ** The insertion sort keeps the promise of [sort_values] *)

Section InsertionSort.

Variable before : Event -> Event -> bool.
Hypothesis before_le : forall x y, before x y = true -> le_SortDT x y.
Hypothesis not_before_ge : forall x y, before x y = false -> le_SortDT y x.

Lemma insert_by_perm (x : Event) (l : list Event) :
  Permutation (insert_by before x l) (x :: l).
Proof.
  induction l as [|y l IH]; simpl; [reflexivity|].
  destruct (before x y); [reflexivity|].
  rewrite IH. apply perm_swap.
Qed.

Lemma insert_by_sorted (x : Event) (l : list Event) :
  StronglySorted le_SortDT l ->
  StronglySorted le_SortDT (insert_by before x l).
Proof.
  induction l as [|y l IH]; simpl; intros S.
  - constructor; constructor.
  - inversion S as [|? ? S' F]; subst.
    destruct (before x y) eqn:B.
    + constructor; [exact S|]. constructor; [now apply before_le|].
      apply before_le in B.
      eapply Forall_impl; [|exact F].
      intros z Hz. unfold le_SortDT in *. eapply dt_leb_trans; eauto.
    + constructor; [now apply IH|].
      apply not_before_ge in B.
      eapply Permutation_Forall;
        [symmetry; apply insert_by_perm|].
      constructor; assumption.
Qed.

Lemma sort_by_sorts : sorts_by_SortDT (sort_by before).
Proof.
  intros l. unfold sort_by. induction l as [|x l [IHp IHs]]; simpl.
  - split; constructor.
  - split.
    + rewrite insert_by_perm. now constructor.
    + now apply insert_by_sorted.
Qed.

End InsertionSort.

Lemma stable_sort_sorts : sorts_by_SortDT stable_sort.
Proof.
  apply sort_by_sorts; unfold le_SortDT; intros x y H.
  - exact H.
  - now apply dt_leb_total.
Qed.

(* ================================================================= *)
(** * Formatting and parsing *)

Lemma digit_val_char (k : Z) :
  0 <= k <= 9 -> digit_val (digit_char k) = Some k.
Proof.
  intros H. unfold digit_val, digit_char.
  replace ((48 <=? Z.to_N (48 + k))%N && (Z.to_N (48 + k) <=? 57)%N)
    with true.
  - f_equal. lia.
  - symmetry. apply andb_true_iff. split; apply N.leb_le; lia.
Qed.

Lemma parse_int_pad2 (n : Z) : 0 <= n < 100 -> parse_int (pad2 n) = Some n.
Proof.
  intros H. unfold parse_int, pad2. cbn [parse_digits].
  rewrite !digit_val_char by (Z.div_mod_to_equations; lia).
  f_equal. Z.div_mod_to_equations. lia.
Qed.

Lemma parse_int_pad4 (n : Z) :
  0 <= n < 10000 -> parse_int (pad4 n) = Some n.
Proof.
  intros H. unfold parse_int, pad4. cbn [parse_digits].
  rewrite !digit_val_char by (Z.div_mod_to_equations; lia).
  f_equal. Z.div_mod_to_equations. lia.
Qed.

Lemma date_ok_bounds (d : date) :
  date_ok d = true ->
  1 <= year d <= 9999 /\ 1 <= month d <= 12 /\ 1 <= day d <= 31.
Proof.
  unfold date_ok, days_in_month. intros H.
  repeat (apply andb_true_iff in H; destruct H as [H ?]).
  destruct (month d =? 2); [destruct (is_leap (year d))|
    destruct ((month d =? 4) || (month d =? 6) || (month d =? 9)
              || (month d =? 11))]; lia.
Qed.

Lemma time_input_ok_bounds (t : time) :
  time_input_ok t = true ->
  0 <= hour t < 24 /\ 0 <= minute t < 60
  /\ second t = 0 /\ microsecond t = 0.
Proof.
  unfold time_input_ok, time_ok. intros H.
  repeat (apply andb_true_iff in H; destruct H as [H ?]). lia.
Qed.

(** Parsing what [isoformat] and [strftime] wrote, with "T" between
    and ":00" behind, gives back [combine]. *)
Lemma fromisoformat_roundtrip (d : date) (t : time) :
  date_ok d = true -> time_input_ok t = true ->
  fromisoformat (isoformat d ++ lit "T" ++ strftime_HM t ++ lit ":00")
  = Some (combine d t).
Proof.
  intros Hd Ht.
  pose proof (date_ok_bounds d Hd) as (By & Bm & Bd).
  pose proof (time_input_ok_bounds t Ht) as (Bh & Bmi & Es & Eu).
  assert (Tok : time_ok t = true).
  { unfold time_input_ok in Ht.
    apply andb_true_iff in Ht as [Ht _].
    apply andb_true_iff in Ht as [Ht _]. exact Ht. }
  change
    (fromisoformat (isoformat d ++ lit "T" ++ strftime_HM t ++ lit ":00"))
    with
    (match parse_int (pad4 (year d)), parse_int (pad2 (month d)),
           parse_int (pad2 (day d)), parse_int (pad2 (hour t)),
           parse_int (pad2 (minute t)), parse_int [48%N; 48%N] with
     | Some y, Some m, Some dd, Some hh, Some mi, Some ss =>
         let x := mkdatetime y m dd hh mi ss 0 in
         if datetime_ok x then Some x else None
     | _, _, _, _, _, _ => None
     end).
  rewrite parse_int_pad4, !parse_int_pad2 by lia.
  change (parse_int [48%N; 48%N]) with (Some 0).
  cbv zeta. unfold combine. rewrite Es, Eu.
  replace (datetime_ok _) with true; [reflexivity|].
  unfold datetime_ok. cbn [dt_year dt_month dt_day dt_hour dt_minute
                           dt_second dt_microsecond].
  destruct d as [y m dd], t as [hh mi ss us]. simpl in *. subst.
  rewrite Hd. symmetry. exact Tok.
Qed.

Lemma isoformat_inj (d d' : date) :
  date_ok d = true -> date_ok d' = true ->
  isoformat d = isoformat d' -> d = d'.
Proof.
  intros Hd Hd' E.
  pose (t := mktime 0 0 0 0).
  pose proof (fromisoformat_roundtrip d t Hd eq_refl) as R.
  pose proof (fromisoformat_roundtrip d' t Hd' eq_refl) as R'.
  rewrite E, R' in R. unfold combine in R.
  destruct d, d'. simpl in R. congruence.
Qed.

(* ================================================================= *)
(** * The event store *)

Lemma remove_at_nil {A} (i : nat) : remove_at i (@nil A) = [].
Proof. unfold remove_at. rewrite firstn_nil, skipn_nil. reflexivity. Qed.

Lemma remove_at_cons {A} (i : nat) (x : A) (l : list A) :
  remove_at (S i) (x :: l) = x :: remove_at i l.
Proof. reflexivity. Qed.

Lemma remove_at_map {A B} (f : A -> B) (i : nat) (l : list A) :
  remove_at i (List.map f l) = List.map f (remove_at i l).
Proof.
  unfold remove_at. rewrite firstn_map, skipn_map, map_app. reflexivity.
Qed.

Lemma remove_at_length {A} (i : nat) (l : list A) :
  (i < List.length l)%nat ->
  S (List.length (remove_at i l)) = List.length l.
Proof.
  revert l. induction i as [|i IH]; intros [|x l] H; simpl in H; try lia.
  - reflexivity.
  - rewrite remove_at_cons. simpl. rewrite IH by lia. reflexivity.
Qed.

Lemma remove_at_Forall {A} (P : A -> Prop) (i : nat) (l : list A) :
  Forall P l -> Forall P (remove_at i l).
Proof.
  revert l. induction i as [|i IH]; intros [|x l] H.
  - constructor.
  - inversion H; assumption.
  - rewrite remove_at_nil. constructor.
  - rewrite remove_at_cons. inversion H; subst. constructor; auto.
Qed.

Lemma event_wf_key (e : Event) : event_wf e -> key_recoverable e.
Proof.
  intros (d & t & Hd & Ht & ED & ET & EK).
  unfold key_recoverable, row_datetime, drop_SortDT. simpl.
  rewrite ED, ET, EK. now apply fromisoformat_roundtrip.
Qed.

(** The loop of the delete handler rebuilds the very events the rows
    were taken from. *)
Lemma rebuild_loop_events (evs acc : list Event) (st : session_state) :
  Forall key_recoverable evs ->
  rebuild_loop (List.map drop_SortDT evs) acc st = (inl (acc ++ evs), st).
Proof.
  intros F. revert acc. induction F as [|e evs K F IH]; intros acc; simpl.
  - unfold ret. now rewrite app_nil_r.
  - unfold bind at 1. unfold key_recoverable in K. rewrite K. simpl.
    rewrite IH. rewrite <- app_assoc. simpl. now destruct e.
Qed.

Lemma del_btn_handler_events (evs : list Event) (idx : Z)
    (st : session_state) :
  Forall key_recoverable evs ->
  del_btn_handler (List.map drop_SortDT evs) idx st =
  if (0 <=? idx) && (idx <? Z.of_nat (List.length evs)) then
    (inl (st_success (lit "Deleted!")),
     mkState (remove_at (Z.to_nat idx) evs))
  else (inr KeyError, st).
Proof.
  intros F. unfold del_btn_handler, drop_index. rewrite length_map.
  destruct ((0 <=? idx) && (idx <? Z.of_nat (List.length evs))).
  - unfold bind at 1. unfold ret at 1. rewrite remove_at_map.
    unfold bind at 1.
    rewrite rebuild_loop_events by now apply remove_at_Forall.
    reflexivity.
  - reflexivity.
Qed.

Lemma StronglySorted_rows (evs : list Event) :
  Forall key_recoverable evs ->
  StronglySorted le_SortDT evs ->
  StronglySorted row_le (List.map drop_SortDT evs).
Proof.
  intros F S. induction S as [|e evs S IH L]; simpl; [constructor|].
  inversion F as [|? ? K F']; subst.
  constructor; [now apply IH|].
  apply Forall_forall. intros r Hr.
  apply in_map_iff in Hr as (e' & <- & Hin).
  exists (SortDT e), (SortDT e'). repeat split.
  - exact K.
  - rewrite Forall_forall in F'. now apply F'.
  - rewrite Forall_forall in L. now apply L.
Qed.

Section SchedulerProperties.

Variable sort_values : list Event -> list Event.
Hypothesis sort_values_sorts : sorts_by_SortDT sort_values.

Lemma events_df_eval (st : session_state) :
  events_df sort_values st
  = (inl (List.map drop_SortDT (sort_values (events st))), st).
Proof.
  unfold events_df, bind, get.
  destruct (events st) as [|e evs] eqn:E; simpl; [|reflexivity].
  destruct (sort_values_sorts []) as [P _].
  apply Permutation_sym, Permutation_nil in P. rewrite P. reflexivity.
Qed.

Lemma sort_values_Forall (P : Event -> Prop) (l : list Event) :
  Forall P l -> Forall P (sort_values l).
Proof.
  intros F. destruct (sort_values_sorts l) as [Hp _].
  eapply Permutation_Forall; [symmetry; exact Hp | exact F].
Qed.

Lemma sort_values_length (l : list Event) :
  List.length (sort_values l) = List.length l.
Proof.
  destruct (sort_values_sorts l) as [Hp _]. now apply Permutation_length.
Qed.

Lemma deleteAt_eval (st : session_state) (idx : Z) :
  Forall event_wf (events st) ->
  deleteAt sort_values idx st =
  if (0 <=? idx) && (idx <? count st) then
    (inl (st_success (lit "Deleted!")),
     mkState (remove_at (Z.to_nat idx) (sort_values (events st))))
  else (inr KeyError, st).
Proof.
  intros W. unfold deleteAt. unfold bind at 1. rewrite events_df_eval.
  rewrite del_btn_handler_events.
  - rewrite sort_values_length. reflexivity.
  - apply sort_values_Forall.
    eapply Forall_impl; [apply event_wf_key | exact W].
Qed.

Lemma run_action_inv (a : action) (st : session_state) :
  action_ok a = true -> store_inv st ->
  store_inv (exec (run_action sort_values a) st).
Proof.
  intros Ha [W T]. destruct a as [title d t dur notes | | idx]; simpl.
  - unfold exec, add_btn_handler.
    destruct (negb (str_truthy (strip title))); [split; assumption|].
    simpl in Ha.
    apply andb_true_iff in Ha as [Ha _].
    apply andb_true_iff in Ha as [Ha _].
    apply andb_true_iff in Ha as [Hd Ht].
    simpl. split; apply Forall_app; split; try assumption;
      constructor; try constructor.
    + exists d, t. simpl. auto.
    + simpl. apply strip_trimmed.
    + simpl. apply strip_trimmed.
  - split; constructor.
  - unfold exec, bind. rewrite events_df_eval.
    destruct (df_empty _); [split; assumption|].
    rewrite del_btn_handler_events
      by (apply sort_values_Forall;
          eapply Forall_impl; [apply event_wf_key | exact W]).
    destruct ((0 <=? idx) && _); simpl; [|split; assumption].
    split; apply remove_at_Forall, sort_values_Forall; assumption.
Qed.

Lemma reachable_inv (st : session_state) :
  reachable sort_values st -> store_inv st.
Proof.
  induction 1 as [|a st R IH Ha].
  - split; constructor.
  - now apply run_action_inv.
Qed.

Lemma row_on_date_wf (d : date) (e : Event) :
  date_ok d = true -> event_wf e ->
  row_on_date d (drop_SortDT e)
  = str_eqb (col_Date (drop_SortDT e)) (isoformat d).
Proof.
  intros Hd W. pose proof (event_wf_key e W) as K.
  destruct W as (d' & t' & Hd' & Ht' & ED & ET & EK).
  unfold row_on_date. unfold key_recoverable in K. rewrite K, EK.
  simpl. rewrite ED.
  destruct (str_eqb (isoformat d') (isoformat d)) eqn:E.
  - apply str_eqb_eq in E. apply isoformat_inj in E; try assumption.
    subst d'. now rewrite !Z.eqb_refl.
  - apply andb_false_iff.
    destruct (year d' =? year d) eqn:Ey;
      destruct (month d' =? month d) eqn:Em;
      destruct (day d' =? day d) eqn:Ed; simpl; auto.
    apply Z.eqb_eq in Ey, Em, Ed.
    assert (d' = d) by (destruct d, d'; simpl in *; congruence).
    subst d'. assert (X : str_eqb (isoformat d) (isoformat d) = true)
      by now apply str_eqb_eq.
    congruence.
Qed.

(** C1, amended: in every store of a session [listAll] returns the
    stored events, all of them and no other, in non-decreasing order
    of (date, time); the order among events of equal date and time is
    left to [sort_values]; the call leaves the store as it was, and a
    second call returns the same frame. *)
Theorem C1_listAll_sorted_pure (st : session_state) :
  reachable sort_values st ->
  exists df,
    listAll sort_values st = (inl df, st)
    /\ Permutation df (List.map drop_SortDT (events st))
    /\ StronglySorted row_le df
    /\ (_ <- listAll sort_values ;; listAll sort_values) st = (inl df, st).
Proof.
  intros R. apply reachable_inv in R as [W _].
  exists (List.map drop_SortDT (sort_values (events st))).
  destruct (sort_values_sorts (events st)) as [P S].
  unfold listAll. repeat split.
  - apply events_df_eval.
  - now apply Permutation_map.
  - apply StronglySorted_rows; [|exact S].
    apply sort_values_Forall.
    eapply Forall_impl; [apply event_wf_key | exact W].
  - unfold bind. rewrite events_df_eval. apply events_df_eval.
Qed.


(** C5, amended: a title that is not blank is accepted; afterwards
    [listAll] holds a row with the title and the notes stripped of
    the whitespace at their ends, the date in ISO form, the time as
    HH:MM and the duration as given, and [count] is one more. *)
Theorem C5_add_then_listAll (st : session_state) (title : str) (d : date)
    (t : time) (duration : Z) (notes : str) :
  blank title = false ->
  exists st' df,
    add_btn_handler title d t duration notes st
    = (inl (st_success (lit "Event added!")), st')
    /\ listAll sort_values st' = (inl df, st')
    /\ In (mkRow (strip title) (isoformat d) (strftime_HM t) duration
                 (strip notes)) df
    /\ count st' = count st + 1.
Proof.
  intros B.
  assert (T : str_truthy (strip title) = true).
  { destruct (strip title) eqn:E; [|reflexivity].
    apply strip_nil_iff in E. congruence. }
  unfold add_btn_handler. rewrite T. simpl.
  eexists. eexists. split; [reflexivity|].
  split; [apply events_df_eval|]. split.
  - apply in_map_iff. eexists. split.
    2:{ eapply Permutation_in.
        - symmetry. apply (proj1 (sort_values_sorts _)).
        - simpl. apply in_or_app. right. left. reflexivity. }
    reflexivity.
  - unfold count. simpl. rewrite length_app. simpl. lia.
Qed.

(** C6: a title that is empty or all whitespace is refused with the
    error notice, and the store, hence its [count], is as before. *)
Theorem C6_blank_title_rejected (st : session_state) (title : str)
    (d : date) (t : time) (duration : Z) (notes : str) :
  blank title = true ->
  add_btn_handler title d t duration notes st
  = (inl (st_error (lit "Please enter an event title.")), st)
  /\ count (exec (add_btn_handler title d t duration notes) st) = count st.
Proof.
  intros B. apply strip_nil_iff in B.
  unfold exec, add_btn_handler. rewrite B. simpl. split; reflexivity.
Qed.

(** C7: in every store of a session, [listForDate d] is the frame of
    [listAll] filtered to the rows whose date is [d], order kept. *)
Theorem C7_listForDate_filters_listAll (st : session_state) (d : date) :
  reachable sort_values st -> date_ok d = true ->
  exists df,
    listAll sort_values st = (inl df, st)
    /\ listForDate sort_values d st
       = (inl (List.filter (row_on_date d) df), st).
Proof.
  intros R Hd. apply reachable_inv in R as [W _].
  eexists. split; [apply events_df_eval|].
  unfold listForDate, bind. rewrite events_df_eval. unfold ret.
  f_equal. f_equal. unfold df_day.
  set (evs := sort_values (events st)).
  assert (We : Forall event_wf evs) by now apply sort_values_Forall.
  transitivity
    (List.filter (fun r => str_eqb (col_Date r) (isoformat d))
       (List.map drop_SortDT evs)).
  - destruct evs; reflexivity.
  - apply filter_ext_in. intros r Hr.
    apply in_map_iff in Hr as (e & <- & He).
    rewrite Forall_forall in We. symmetry. now apply row_on_date_wf, We.
Qed.

(** C9: in every store of a session, whatever adds, deletes and
    clears led to it, the sort key of each event is the datetime that
    parsing its stored date, "T", its stored time and ":00" gives. *)
Theorem C9_sort_key_recoverable (st : session_state) :
  reachable sort_values st -> Forall key_recoverable (events st).
Proof.
  intros R. apply reachable_inv in R as [W _].
  eapply Forall_impl; [apply event_wf_key | exact W].
Qed.

(** C10: in every store of a session the title and the notes of each
    event have no whitespace at either end. *)
Theorem C10_title_notes_trimmed (st : session_state) :
  reachable sort_values st -> Forall title_notes_trimmed (events st).
Proof.
  intros R. now apply reachable_inv in R as [_ T].
Qed.

Lemma run_actions_reachable (acts : list action) (st : session_state) :
  forallb action_ok acts = true ->
  reachable sort_values st ->
  reachable sort_values (run_actions sort_values acts st).
Proof.
  revert st. induction acts as [|a acts IH]; intros st Ha R; simpl.
  - exact R.
  - simpl in Ha. apply andb_true_iff in Ha as [Ha Hs].
    apply IH; [exact Hs|]. now apply reach_step.
Qed.

End SchedulerProperties.

(* ================================================================= *)
(** * Instances on a store of two events *)

(** C1, as the specification words it: ties are promised to keep the
    order of insertion.  Twenty events added for the same date and
    time, E00 first: numpy's quicksort partitions their column once
    and hands back the indexer 0, 17, 16, ..., 2, 1, 18, 19, so the
    listing shows E01, added before E02, after it. *)
Lemma C1_counterexample :
  exists indexer,
    argsort_quicksort (List.map SortDT (events twenty_events))
    = Some indexer
    /\ exists df,
         listAll (take indexer) twenty_events = (inl df, twenty_events)
         /\ ~ tie_order_kept (events twenty_events) df.
Proof.
  eexists. split; [vm_compute; reflexivity|].
  eexists. split; [vm_compute; reflexivity|].
  intros K.
  destruct (K 1%nat 2%nat _ _ (Nat.lt_succ_diag_r 1)
              eq_refl eq_refl eq_refl)
    as (i' & j' & L & Hi & Hj).
  do 20 (try (destruct i' as [|i'];
              [try (vm_compute in Hi; discriminate Hi)|])).
  - do 20 (try (destruct j' as [|j'];
                [try (vm_compute in Hj; discriminate Hj)|])).
    + lia.
    + vm_compute in Hj. destruct j'; discriminate Hj.
  - vm_compute in Hi. destruct i'; discriminate Hi.
Qed.

Lemma C1_listAll_sorted_pure_witness :
  exists df,
    listAll stable_sort two_events = (inl df, two_events)
    /\ Permutation df (List.map drop_SortDT (events two_events))
    /\ StronglySorted row_le df
    /\ (_ <- listAll stable_sort ;; listAll stable_sort) two_events
       = (inl df, two_events).
Proof.
  apply (C1_listAll_sorted_pure stable_sort stable_sort_sorts two_events).
  apply run_actions_reachable; [reflexivity | constructor].
Defined.


(** C5, as the specification words it: the event listed after [add]
    is promised the very fields given.  A title with a space in front
    is valid, and no row carries it as given. *)
Lemma C5_counterexample :
  blank (lit " Gym") = false
  /\ (let st' :=
        exec (add_btn_handler (lit " Gym") pi_day nine 30 []) init_state in
      exists df,
        listAll stable_sort st' = (inl df, st')
        /\ ~ In (mkRow (lit " Gym") (isoformat pi_day) (strftime_HM nine)
                       30 []) df).
Proof.
  split; [reflexivity|].
  eexists. split; [vm_compute; reflexivity|].
  intros [H | []]. vm_compute in H. discriminate.
Qed.

Lemma C5_add_then_listAll_witness :
  exists st' df,
    add_btn_handler (lit " Gym ") pi_day nine 45 (lit "bring towel ")
      two_events
    = (inl (st_success (lit "Event added!")), st')
    /\ listAll stable_sort st' = (inl df, st')
    /\ In (mkRow (strip (lit " Gym ")) (isoformat pi_day)
                 (strftime_HM nine) 45 (strip (lit "bring towel "))) df
    /\ count st' = count two_events + 1.
Proof.
  apply (C5_add_then_listAll stable_sort stable_sort_sorts two_events
           (lit " Gym ") pi_day nine 45 (lit "bring towel ")).
  reflexivity.
Defined.

Lemma C6_blank_title_rejected_witness :
  add_btn_handler (lit "   ") pi_day nine 45 [] two_events
  = (inl (st_error (lit "Please enter an event title.")), two_events)
  /\ count (exec (add_btn_handler (lit "   ") pi_day nine 45 []) two_events)
     = count two_events.
Proof.
  apply (C6_blank_title_rejected two_events (lit "   ") pi_day nine 45 []).
  reflexivity.
Defined.

Lemma C7_listForDate_filters_listAll_witness :
  exists df,
    listAll stable_sort two_events = (inl df, two_events)
    /\ listForDate stable_sort pi_day two_events
       = (inl (List.filter (row_on_date pi_day) df), two_events).
Proof.
  apply (C7_listForDate_filters_listAll stable_sort stable_sort_sorts
           two_events pi_day).
  - apply run_actions_reachable; [reflexivity | constructor].
  - reflexivity.
Defined.

Lemma C9_sort_key_recoverable_witness :
  Forall key_recoverable (events two_events).
Proof.
  apply (C9_sort_key_recoverable stable_sort stable_sort_sorts two_events).
  apply run_actions_reachable; [reflexivity | constructor].
Defined.

Lemma C10_title_notes_trimmed_witness :
  Forall title_notes_trimmed (events two_events).
Proof.
  apply (C10_title_notes_trimmed stable_sort stable_sort_sorts two_events).
  apply run_actions_reachable; [reflexivity | constructor].
Defined.

(** Outside what [st.time_input] delivers: [add_event] called with a
    time that has seconds stores them in the sort key alone, and the
    key is no longer what the strings parse to. *)
Remark add_event_with_seconds :
  let st := exec (add_event (lit "A") pi_day (mktime 9 0 30 0) 30 [])
                 init_state in
  ~ Forall key_recoverable (events st).
Proof.
  intros st F. inversion F as [|e l K _]; subst.
  vm_compute in K. discriminate.
Qed.

(* ================================================================= *)
(** * More on the prediction tab *)

Lemma py_round_cases (x : Q) :
  (py_round x = Qfloor x
   /\ (x - inject_Z (Qfloor x) <= 1 # 2)%Q
   /\ ((x - inject_Z (Qfloor x) == 1 # 2)%Q -> Z.even (Qfloor x) = true))
  \/ (py_round x = Qfloor x + 1
      /\ (1 # 2 <= x - inject_Z (Qfloor x))%Q
      /\ ((x - inject_Z (Qfloor x) == 1 # 2)%Q
          -> Z.even (Qfloor x) = false)).
Proof.
  unfold py_round.
  destruct (Qcompare_spec (x - inject_Z (Qfloor x)) (1 # 2)) as [E | L | G].
  - destruct (Z.even (Qfloor x)) eqn:Ev; [left | right];
      (split; [reflexivity|]; split; [rewrite E; apply Qle_refl | auto]).
  - left. split; [reflexivity|]. split; [now apply Qlt_le_weak|].
    intros E. rewrite E in L. now apply Qlt_irrefl in L.
  - right. split; [reflexivity|]. split; [now apply Qlt_le_weak|].
    intros E. rewrite E in G. now apply Qlt_irrefl in G.
Qed.

Lemma py_round_le (x : Q) (n : Z) :
  (x < inject_Z n + (1 # 2))%Q -> py_round x <= n.
Proof.
  intros H. pose proof (Qfloor_le x) as F.
  destruct (py_round_cases x) as [(-> & _ & _) | (-> & L & _)].
  - assert (X : (inject_Z (Qfloor x) < inject_Z (n + 1))%Q)
      by (rewrite inject_Z_plus; change (inject_Z 1) with 1%Q; lra).
    rewrite <- Zlt_Qlt in X. lia.
  - assert (X : (inject_Z (Qfloor x) < inject_Z n)%Q) by lra.
    rewrite <- Zlt_Qlt in X. lia.
Qed.

Lemma py_round_ge (x : Q) (n : Z) :
  (inject_Z n - (1 # 2) < x)%Q -> n <= py_round x.
Proof.
  intros H. pose proof (Qlt_floor x) as F.
  rewrite inject_Z_plus in F. change (inject_Z 1) with 1%Q in F.
  destruct (py_round_cases x) as [(-> & L & _) | (-> & _ & _)].
  - assert (X : (inject_Z n < inject_Z (Qfloor x + 1))%Q)
      by (rewrite inject_Z_plus; change (inject_Z 1) with 1%Q; lra).
    rewrite <- Zlt_Qlt in X. lia.
  - assert (X : (inject_Z n < inject_Z (Qfloor x + 1 + 1))%Q)
      by (rewrite !inject_Z_plus; change (inject_Z 1) with 1%Q; lra).
    rewrite <- Zlt_Qlt in X. lia.
Qed.

Lemma py_round_mono (x y : Q) : (x <= y)%Q -> py_round x <= py_round y.
Proof.
  intros H. pose proof (Qfloor_resp_le x y H) as F.
  destruct (py_round_cases x) as [(-> & Lx & Ex) | (-> & Lx & Ex)];
    destruct (py_round_cases y) as [(-> & Ly & Ey) | (-> & Ly & Ey)];
    try lia.
  destruct (Z.eq_dec (Qfloor x) (Qfloor y)) as [E | N]; [|lia].
  exfalso. rewrite E in Lx, Ex.
  assert (X : (x - inject_Z (Qfloor y) == 1 # 2)%Q)
    by (apply Qle_antisym; lra).
  assert (Y : (y - inject_Z (Qfloor y) == 1 # 2)%Q)
    by (apply Qle_antisym; lra).
  rewrite (Ex X) in Ey. specialize (Ey Y). discriminate.
Qed.

Lemma Qltb_lt (x y : Q) : Qltb x y = true <-> (x < y)%Q.
Proof.
  unfold Qltb. rewrite Qlt_alt. destruct (x ?= y)%Q; split; congruence.
Qed.

Lemma Qltb_ge (x y : Q) : Qltb x y = false <-> (y <= x)%Q.
Proof.
  unfold Qltb. rewrite Qle_alt.
  rewrite <- Qcompare_antisym.
  destruct (y ?= x)%Q; simpl; split; intros H;
    try reflexivity; try discriminate;
    try (exfalso; apply H; reflexivity).
Qed.

Lemma raw_score_linear (s f : Q) (w e : Z) :
  (raw_score s f w e ==
   20 + 6 * s + 5 * f - 7 * inject_Z w + (3 # 20) * inject_Z e)%Q.
Proof.
  rewrite raw_score_formula.
  setoid_replace 1.5%Q with (3 # 2)%Q by reflexivity.
  field.
Qed.

Lemma slider_hours_le (k k' : Z) :
  k <= k' -> (slider_hours k <= slider_hours k')%Q.
Proof. intros H. unfold slider_hours. rewrite Zle_Qle in H. lra. Qed.

Lemma slider_hours_bounds (k : Z) :
  0 <= k <= 20 -> (0 <= slider_hours k <= 10)%Q.
Proof.
  intros [H1 H2]. unfold slider_hours. rewrite Zle_Qle in H1, H2.
  change (inject_Z 0) with 0%Q in H1. change (inject_Z 20) with 20%Q in H2.
  lra.
Qed.

Lemma slider_minutes_Q (k : Z) :
  (inject_Z (slider_minutes k) == 5 * inject_Z k)%Q.
Proof.
  unfold slider_minutes. rewrite inject_Z_mult. reflexivity.
Qed.

(** X1: over the steps of the sliders the score never goes down with
    more sleep, more focus time or more exercise, and never goes up
    with a higher workload. *)
Theorem predict_productivity_monotone (a b w c a' b' w' c' : Z) :
  0 <= a <= 20 -> 0 <= b <= 20 -> 1 <= w <= 5 -> 0 <= c <= 24 ->
  0 <= a' <= 20 -> 0 <= b' <= 20 -> 1 <= w' <= 5 -> 0 <= c' <= 24 ->
  a <= a' -> b <= b' -> w' <= w -> c <= c' ->
  predict_productivity (slider_hours a) (slider_hours b) w
    (slider_minutes c)
  <= predict_productivity (slider_hours a') (slider_hours b') w'
       (slider_minutes c').
Proof.
  intros _ _ _ _ _ _ _ _ Ha Hb Hw Hc. unfold predict_productivity.
  assert (R : py_round (raw_score (slider_hours a) (slider_hours b) w
                          (slider_minutes c))
              <= py_round (raw_score (slider_hours a') (slider_hours b') w'
                             (slider_minutes c'))).
  { apply py_round_mono. rewrite !raw_score_linear, !slider_minutes_Q.
    apply slider_hours_le in Ha, Hb. rewrite Zle_Qle in Hw, Hc. lra. }
  unfold clamp. lia.
Qed.

Lemma predict_productivity_monotone_witness :
  predict_productivity (slider_hours 12) (slider_hours 6) 4
    (slider_minutes 2)
  <= predict_productivity (slider_hours 15) (slider_hours 6) 2
       (slider_minutes 6).
Proof.
  apply (predict_productivity_monotone 12 6 4 2 15 6 2 6); lia.
Defined.

(** X2: over the steps of the sliders the rounded score before
    clamping lies between -15 and 141, and both values are taken, at
    the worst and at the best end of all four sliders; there the
    clamp cuts to 0 and to 100. *)
Theorem rounded_raw_score_range (a b w c : Z) :
  0 <= a <= 20 -> 0 <= b <= 20 -> 1 <= w <= 5 -> 0 <= c <= 24 ->
  -15 <= py_round (raw_score (slider_hours a) (slider_hours b) w
                     (slider_minutes c)) <= 141
  /\ (py_round (raw_score (slider_hours 0) (slider_hours 0) 5
                  (slider_minutes 0)) = -15
      /\ predict_productivity (slider_hours 0) (slider_hours 0) 5
           (slider_minutes 0) = 0)
  /\ (py_round (raw_score (slider_hours 20) (slider_hours 20) 1
                  (slider_minutes 24)) = 141
      /\ predict_productivity (slider_hours 20) (slider_hours 20) 1
           (slider_minutes 24) = 100).
Proof.
  intros Ha Hb [Hw1 Hw2] [Hc1 Hc2].
  split; [|repeat split; reflexivity].
  apply slider_hours_bounds in Ha, Hb.
  rewrite Zle_Qle in Hw1, Hw2, Hc1, Hc2.
  change (inject_Z 1) with 1%Q in Hw1. change (inject_Z 5) with 5%Q in Hw2.
  change (inject_Z 0) with 0%Q in Hc1. change (inject_Z 24) with 24%Q in Hc2.
  split.
  - apply py_round_ge. rewrite raw_score_linear, slider_minutes_Q.
    change (inject_Z (-15)) with (-15)%Q. lra.
  - apply py_round_le. rewrite raw_score_linear, slider_minutes_Q.
    change (inject_Z 141) with 141%Q. lra.
Qed.

Lemma rounded_raw_score_range_witness :
  -15 <= py_round (raw_score (slider_hours 14) (slider_hours 8) 3
                     (slider_minutes 4)) <= 141
  /\ (py_round (raw_score (slider_hours 0) (slider_hours 0) 5
                  (slider_minutes 0)) = -15
      /\ predict_productivity (slider_hours 0) (slider_hours 0) 5
           (slider_minutes 0) = 0)
  /\ (py_round (raw_score (slider_hours 20) (slider_hours 20) 1
                  (slider_minutes 24)) = 141
      /\ predict_productivity (slider_hours 20) (slider_hours 20) 1
           (slider_minutes 24) = 100).
Proof.
  apply (rounded_raw_score_range 14 8 3 4); lia.
Defined.

Ltac differ H := vm_compute in H; discriminate H.

Ltac not_among :=
  let H := fresh "H" in
  simpl; intros H;
  repeat (destruct H as [H | H]; [differ H|]); exact H.

Ltac no_tip_twice :=
  repeat match goal with
         | |- NoDup [] => constructor
         | |- NoDup (_ :: _) => constructor; [not_among|]
         end.

(** X3: the suggestion list is never empty, holds at most four tips
    and no tip twice; the fallback tip stands alone, and it is given
    exactly when none of the four checks fires. *)
Theorem quick_suggestions_shape (s f : Q) (w e : Z) :
  (1 <= List.length (quick_suggestions s f w e) <= 4)%nat
  /\ NoDup (quick_suggestions s f w e)
  /\ (In tip_keep (quick_suggestions s f w e)
      <-> quick_suggestions s f w e = [tip_keep])
  /\ (quick_suggestions s f w e = [tip_keep]
      <-> Qltb s 6.5 = false /\ Qltb f 3 = false
          /\ (3 <? w) = false /\ (e <? 15) = false).
Proof.
  unfold quick_suggestions. cbv zeta.
  destruct (Qltb s 6.5), (Qltb f 3), (3 <? w), (e <? 15);
    cbn [app negb];
    (split; [simpl; lia|]);
    (split; [no_tip_twice|]);
    (split; [split; [intros H; first [reflexivity | exfalso; revert H; not_among]
                    | intros H; first [now left | differ H]]
            | split; [intros H; first [now auto | differ H]
                     | intros (A & B & C & D);
                       first [reflexivity | discriminate]]]).
Qed.

(** X4: at steps of the sliders where all four checks fire the score
    is at most 48, so the banner is the high-risk one. *)
Theorem all_checks_fire_high_risk (a b w c : Z) :
  0 <= a <= 20 -> 0 <= b <= 20 -> 1 <= w <= 5 -> 0 <= c <= 24 ->
  (slider_hours a < 6.5)%Q -> (slider_hours b < 3)%Q ->
  3 < w -> slider_minutes c < 15 ->
  quick_suggestions (slider_hours a) (slider_hours b) w (slider_minutes c)
  = [tip_sleep; tip_focus; tip_workload; tip_exercise]
  /\ predict_productivity (slider_hours a) (slider_hours b) w
       (slider_minutes c) <= 48
  /\ banner (predict_productivity (slider_hours a) (slider_hours b) w
               (slider_minutes c))
     = st_error
         (lit "High risk of low productivity " ++ [10060%N]
            ++ lit " Try improving sleep/focus/exercise.").
Proof.
  intros _ _ _ _ Hs Hf Hw He.
  set (s := slider_hours a) in *. set (f := slider_hours b) in *.
  set (e := slider_minutes c) in *.
  assert (P : predict_productivity s f w e <= 48).
  { unfold predict_productivity.
    assert (R : py_round (raw_score s f w e) <= 48).
    { apply py_round_le. rewrite raw_score_linear.
      assert (Hw' : 4 <= w) by lia. assert (He' : e <= 14) by lia.
      rewrite Zle_Qle in Hw', He'.
      change (inject_Z 4) with 4%Q in Hw'.
      change (inject_Z 14) with 14%Q in He'.
      change (inject_Z 48) with 48%Q. lra. }
    unfold clamp. lia. }
  split; [|split; [exact P|]].
  - unfold quick_suggestions. cbv zeta.
    rewrite (proj2 (Qltb_lt s 6.5) Hs), (proj2 (Qltb_lt f 3) Hf).
    rewrite (proj2 (Z.ltb_lt 3 w) Hw), (proj2 (Z.ltb_lt e 15) He).
    reflexivity.
  - unfold banner.
    replace (predict_productivity s f w e >=? 80) with false
      by (symmetry; rewrite Z.geb_leb; apply Z.leb_gt; lia).
    replace (predict_productivity s f w e >=? 60) with false
      by (symmetry; rewrite Z.geb_leb; apply Z.leb_gt; lia).
    reflexivity.
Qed.

Lemma all_checks_fire_high_risk_witness :
  quick_suggestions (slider_hours 12) (slider_hours 5) 4 (slider_minutes 2)
  = [tip_sleep; tip_focus; tip_workload; tip_exercise]
  /\ predict_productivity (slider_hours 12) (slider_hours 5) 4
       (slider_minutes 2) <= 48
  /\ banner (predict_productivity (slider_hours 12) (slider_hours 5) 4
               (slider_minutes 2))
     = st_error
         (lit "High risk of low productivity " ++ [10060%N]
            ++ lit " Try improving sleep/focus/exercise.").
Proof.
  apply (all_checks_fire_high_risk 12 5 4 2); try lia.
  - unfold slider_hours, Qlt; simpl; lia.
  - unfold slider_hours, Qlt; simpl; lia.
  - unfold slider_minutes; lia.
Defined.

(** X5: at steps of the sliders where no check fires the single tip
    is the fallback and the score is at least 55; the banner is not
    fixed by that, at the least such step it is the high-risk one. *)
Theorem no_check_fires_score_at_least_55 (a b w c : Z) :
  0 <= a <= 20 -> 0 <= b <= 20 -> 1 <= w <= 5 -> 0 <= c <= 24 ->
  (6.5 <= slider_hours a)%Q -> (3 <= slider_hours b)%Q ->
  w <= 3 -> 15 <= slider_minutes c ->
  quick_suggestions (slider_hours a) (slider_hours b) w (slider_minutes c)
  = [tip_keep]
  /\ 55 <= predict_productivity (slider_hours a) (slider_hours b) w
             (slider_minutes c).
Proof.
  intros _ _ _ _ Hs Hf Hw He.
  set (s := slider_hours a) in *. set (f := slider_hours b) in *.
  set (e := slider_minutes c) in *.
  split.
  - unfold quick_suggestions. cbv zeta.
    rewrite (proj2 (Qltb_ge s 6.5) Hs), (proj2 (Qltb_ge f 3) Hf).
    rewrite (proj2 (Z.ltb_ge 3 w) Hw), (proj2 (Z.ltb_ge e 15) He).
    reflexivity.
  - unfold predict_productivity.
    assert (R : 55 <= py_round (raw_score s f w e)).
    { apply py_round_ge. rewrite raw_score_linear.
      rewrite Zle_Qle in Hw, He.
      change (inject_Z 3) with 3%Q in Hw.
      change (inject_Z 15) with 15%Q in He.
      change (inject_Z 55) with 55%Q. lra. }
    unfold clamp. lia.
Qed.

Lemma no_check_fires_score_at_least_55_witness :
  (quick_suggestions (slider_hours 13) (slider_hours 6) 3 (slider_minutes 3)
   = [tip_keep]
   /\ 55 <= predict_productivity (slider_hours 13) (slider_hours 6) 3
              (slider_minutes 3))
  /\ banner (predict_productivity (slider_hours 13) (slider_hours 6) 3
               (slider_minutes 3))
     = st_error
         (lit "High risk of low productivity " ++ [10060%N]
            ++ lit " Try improving sleep/focus/exercise.").
Proof.
  split; [|reflexivity].
  apply (no_check_fires_score_at_least_55 13 6 3 3); try lia.
  - unfold slider_hours, Qle; simpl; lia.
  - unfold slider_hours, Qle; simpl; lia.
  - unfold slider_minutes; lia.
Defined.

(* ================================================================= *)
(** * More on the event store *)

Lemma rebuild_loop_state (rows : list Row) (acc : list Event)
    (st : session_state) :
  snd (rebuild_loop rows acc st) = st.
Proof.
  revert acc. induction rows as [|r rows IH]; intros acc; simpl;
    [reflexivity|].
  unfold bind at 1. destruct (row_datetime r); simpl;
    [apply IH | reflexivity].
Qed.

Lemma rebuild_loop_rows (rows : list Row) (acc evs : list Event)
    (st : session_state) :
  fst (rebuild_loop rows acc st) = inl evs ->
  List.map drop_SortDT evs = List.map drop_SortDT acc ++ rows.
Proof.
  revert acc. induction rows as [|r rows IH]; intros acc; simpl.
  - intros H. injection H as <-. now rewrite app_nil_r.
  - unfold bind at 1. destruct (row_datetime r) eqn:E; simpl;
      [|discriminate].
    intros H. apply IH in H. rewrite H, map_app, <- app_assoc.
    simpl. now destruct r.
Qed.

Lemma rebuild_loop_raises (rows : list Row) (acc : list Event)
    (st : session_state) (e : exn) :
  fst (rebuild_loop rows acc st) = inr e ->
  e = ValueError /\ Exists (fun r => row_datetime r = None) rows.
Proof.
  revert acc. induction rows as [|r rows IH]; intros acc; simpl.
  - discriminate.
  - unfold bind at 1. destruct (row_datetime r) eqn:E; simpl.
    + intros H. apply IH in H as [-> X]. split; [reflexivity|].
      now apply Exists_cons_tl.
    + intros H. injection H as <-. split; [reflexivity|].
      now apply Exists_cons_hd.
Qed.

Lemma df_day_filter (d : date) (df : DataFrame) :
  df_day d df
  = List.filter (fun r => str_eqb (col_Date r) (isoformat d)) df.
Proof. destruct df; reflexivity. Qed.

Lemma nth_error_remove_at {A} (i : nat) (l : list A) (x : A) :
  nth_error l i = Some x -> Permutation l (x :: remove_at i l).
Proof.
  revert l. induction i as [|i IH]; intros [|y l] H; simpl in H;
    try discriminate.
  - injection H as ->. reflexivity.
  - rewrite remove_at_cons. rewrite (IH l H) at 1. apply perm_swap.
Qed.

Lemma remove_at_StronglySorted {A} (R : A -> A -> Prop) (i : nat)
    (l : list A) :
  StronglySorted R l -> StronglySorted R (remove_at i l).
Proof.
  revert l. induction i as [|i IH]; intros [|y l] S.
  - constructor.
  - now inversion S.
  - rewrite remove_at_nil. constructor.
  - rewrite remove_at_cons. inversion S; subst.
    constructor; [now apply IH | now apply remove_at_Forall].
Qed.

Lemma filter_StronglySorted {A} (R : A -> A -> Prop) (p : A -> bool)
    (l : list A) :
  StronglySorted R l -> StronglySorted R (List.filter p l).
Proof.
  induction 1 as [|x l S IH F]; simpl; [constructor|].
  destruct (p x); [|exact IH].
  constructor; [exact IH|].
  apply Forall_forall. intros y Hy. apply filter_In in Hy as [Hy _].
  rewrite Forall_forall in F. now apply F.
Qed.

Lemma lstrip_blank_prefix (s : str) :
  exists p, s = p ++ lstrip s /\ blank p = true.
Proof.
  unfold blank. induction s as [|c s (p & E & B)]; simpl.
  - exists []. split; reflexivity.
  - destruct (isspace c) eqn:W.
    + exists (c :: p). simpl. rewrite W, B. split; [now f_equal | reflexivity].
    + exists []. split; reflexivity.
Qed.

Lemma strip_between_blanks (s : str) :
  exists p q, s = p ++ strip s ++ q /\ blank p = true /\ blank q = true.
Proof.
  destruct (lstrip_blank_prefix s) as (p & Ep & Bp).
  destruct (lstrip_blank_prefix (rev (lstrip s))) as (q & Eq & Bq).
  exists p, (rev q). unfold strip, rstrip. repeat split.
  - rewrite <- rev_app_distr, <- Eq, rev_involutive. exact Ep.
  - exact Bp.
  - now rewrite blank_rev.
Qed.

Lemma lstrip_fixed (s : str) c r : s = c :: r -> isspace c = false ->
  lstrip s = s.
Proof. intros -> H. simpl. now rewrite H. Qed.

Lemma strip_idempotent (s : str) : strip (strip s) = strip s.
Proof.
  pose proof (strip_trimmed s) as T. unfold trimmed in T.
  destruct (strip s) as [|c r] eqn:E; [reflexivity|].
  destruct (rev (c :: r)) as [|c' r'] eqn:Er.
  - apply (f_equal (@rev N)) in Er. rewrite rev_involutive in Er.
    discriminate.
  - apply andb_true_iff in T as [T1 T2].
    apply negb_true_iff in T1, T2.
    unfold strip, rstrip.
    rewrite (lstrip_fixed (c :: r) c r eq_refl T1), Er.
    rewrite (lstrip_fixed (c' :: r') c' r' eq_refl T2), <- Er.
    apply rev_involutive.
Qed.

Lemma add_btn_handler_events (st : session_state) (title : str) (d : date)
    (t : time) (duration : Z) (notes : str) :
  blank title = false ->
  events (exec (add_btn_handler title d t duration notes) st)
  = events st
      ++ [ {| Title := strip title; Date := isoformat d;
              Time := strftime_HM t; Duration_min := duration;
              Notes := strip notes; SortDT := combine d t |} ].
Proof.
  intros B.
  assert (T : str_truthy (strip title) = true).
  { destruct (strip title) eqn:E; [|reflexivity].
    apply strip_nil_iff in E. congruence. }
  unfold exec, add_btn_handler. rewrite T. reflexivity.
Qed.

Section DeleteOnAnyStore.

Variable sort_values : list Event -> list Event.

Lemma events_df_returns (st : session_state) :
  exists df, events_df sort_values st = (inl df, st).
Proof.
  unfold events_df, bind, get.
  destruct (negb (list_truthy (events st))); eexists; reflexivity.
Qed.

(** X6: on any store, whatever it holds, [deleteAt] either shows
    "Deleted!" and leaves the rows of the listing without row [idx],
    or raises and leaves the store as it was: [KeyError] exactly when
    [idx] is no row label of the listing, [ValueError] only when a
    row that would stay does not parse. *)
Theorem deleteAt_all_or_nothing (st : session_state) (idx : Z) :
  exists df,
    listAll sort_values st = (inl df, st)
    /\ match deleteAt sort_values idx st with
       | (inl n, st') =>
           n = st_success (lit "Deleted!")
           /\ 0 <= idx < Z.of_nat (List.length df)
           /\ List.map drop_SortDT (events st')
              = remove_at (Z.to_nat idx) df
       | (inr KeyError, st') =>
           st' = st /\ ~ 0 <= idx < Z.of_nat (List.length df)
       | (inr ValueError, st') =>
           st' = st
           /\ 0 <= idx < Z.of_nat (List.length df)
           /\ Exists (fun r => row_datetime r = None)
                (remove_at (Z.to_nat idx) df)
       end.
Proof.
  destruct (events_df_returns st) as [df E].
  exists df. split; [exact E|].
  unfold deleteAt. unfold bind at 1. rewrite E.
  unfold del_btn_handler, drop_index.
  destruct ((0 <=? idx) && (idx <? Z.of_nat (List.length df))) eqn:B.
  - apply andb_true_iff in B as [B1 B2].
    apply Z.leb_le in B1. apply Z.ltb_lt in B2.
    unfold bind at 1. unfold ret at 1. unfold bind at 1.
    pose proof (rebuild_loop_state (remove_at (Z.to_nat idx) df) [] st) as S.
    pose proof (fun evs =>
                  rebuild_loop_rows (remove_at (Z.to_nat idx) df) [] evs st)
      as R.
    pose proof (rebuild_loop_raises (remove_at (Z.to_nat idx) df) [] st) as X.
    destruct (rebuild_loop (remove_at (Z.to_nat idx) df) [] st)
      as [[evs | e] st1].
    + simpl. repeat split; try lia. exact (R evs eq_refl).
    + simpl in S. subst st1. destruct (X e eq_refl) as [-> Y].
      repeat split; try lia. exact Y.
  - apply andb_false_iff in B. simpl. split; [reflexivity|].
    intros [H1 H2].
    destruct B as [B | B]; [apply Z.leb_gt in B | apply Z.ltb_ge in B]; lia.
Qed.

(** X7: after the clear button the store is empty: [count] is 0, the
    listing and every day view are empty frames, and a delete of any
    row label raises [KeyError]. *)
Theorem clear_empties_the_store (st : session_state) (d : date) (idx : Z) :
  clear_btn_handler st
  = (inl (st_warning (lit "All events cleared.")), init_state)
  /\ count init_state = 0
  /\ listAll sort_values init_state = (inl [], init_state)
  /\ listForDate sort_values d init_state = (inl [], init_state)
  /\ deleteAt sort_values idx init_state = (inr KeyError, init_state).
Proof.
  repeat split. unfold deleteAt, bind. simpl.
  unfold del_btn_handler, drop_index, bind. simpl.
  destruct (0 <=? idx) eqn:A; simpl; [|reflexivity].
  destruct (idx <? 0) eqn:B; [|reflexivity].
  apply Z.leb_le in A. apply Z.ltb_lt in B. lia.
Qed.

End DeleteOnAnyStore.

Section SchedulerMore.

Variable sort_values : list Event -> list Event.
Hypothesis sort_values_sorts : sorts_by_SortDT sort_values.

(** X8: with a row number the number input lets through, the delete
    button never raises: under an empty frame the section is not
    drawn and the store stays as it is, otherwise a row is deleted
    and [count] is one less. *)
Theorem delete_button_never_raises (st : session_state) (df : DataFrame)
    (idx : Z) :
  reachable sort_values st ->
  listAll sort_values st = (inl df, st) ->
  idx_input_ok df idx = true ->
  exists n st',
    run_action sort_values (PressDelete idx) st = (inl n, st')
    /\ (df = [] -> n = st_info (lit "No events yet.") /\ st' = st)
    /\ (df <> [] ->
        n = st_success (lit "Deleted!") /\ count st' = count st - 1).
Proof.
  intros R L B. apply (reachable_inv sort_values sort_values_sorts) in R.
  destruct R as [W _].
  unfold listAll in L.
  rewrite (events_df_eval sort_values sort_values_sorts) in L.
  injection L as <-.
  set (evs := sort_values (events st)) in *.
  assert (K : Forall key_recoverable evs).
  { apply (sort_values_Forall sort_values sort_values_sorts).
    eapply Forall_impl; [apply event_wf_key | exact W]. }
  assert (Len : List.length evs = List.length (events st))
    by apply (sort_values_length sort_values sort_values_sorts).
  unfold idx_input_ok in B. rewrite length_map in B.
  simpl. unfold bind at 1.
  rewrite (events_df_eval sort_values sort_values_sorts). fold evs.
  destruct (List.map drop_SortDT evs) as [|r df'] eqn:E.
  - simpl. eexists. eexists. split; [reflexivity|].
    split; [auto | congruence].
  - cbn [df_empty]. rewrite <- E. rewrite (del_btn_handler_events evs idx st K).
    assert (Pos : (0 < List.length evs)%nat).
    { rewrite <- (length_map drop_SortDT), E. simpl. lia. }
    apply andb_true_iff in B as [B1 B2].
    apply Z.leb_le in B1, B2.
    replace ((0 <=? idx) && (idx <? Z.of_nat (List.length evs))) with true
      by (symmetry; apply andb_true_iff; split;
          [apply Z.leb_le | apply Z.ltb_lt]; lia).
    eexists. eexists. split; [reflexivity|].
    split; [rewrite E; discriminate|]. intros _. split; [reflexivity|].
    unfold count. simpl.
    pose proof (remove_at_length (Z.to_nat idx) evs). lia.
Qed.

(** X9: a delete with a valid row number takes one event out of the
    store and keeps every other event as it was, sort key included;
    the list it stores is in non-decreasing order of the sort key,
    whatever order the events were added in. *)
Theorem deleteAt_keeps_the_others (st : session_state) (idx : Z) :
  reachable sort_values st ->
  0 <= idx < count st ->
  exists e st',
    nth_error (sort_values (events st)) (Z.to_nat idx) = Some e
    /\ deleteAt sort_values idx st
       = (inl (st_success (lit "Deleted!")), st')
    /\ Permutation (events st) (e :: events st')
    /\ StronglySorted le_SortDT (events st').
Proof.
  intros R Hi. apply (reachable_inv sort_values sort_values_sorts) in R.
  destruct R as [W _].
  pose proof (deleteAt_eval sort_values sort_values_sorts st idx W) as D.
  replace ((0 <=? idx) && (idx <? count st)) with true in D
    by (symmetry; apply andb_true_iff; split;
        [apply Z.leb_le | apply Z.ltb_lt]; lia).
  destruct (sort_values_sorts (events st)) as [P S].
  destruct (nth_error (sort_values (events st)) (Z.to_nat idx))
    as [e|] eqn:N.
  - exists e. eexists. split; [reflexivity|]. split; [exact D|].
    simpl. split.
    + eapply Permutation_trans; [symmetry; exact P|].
      now apply nth_error_remove_at.
    + now apply remove_at_StronglySorted.
  - apply nth_error_None in N.
    rewrite (sort_values_length sort_values sort_values_sorts) in N.
    unfold count in Hi. lia.
Qed.

(** X10: in every store of a session each duration lies within the
    bounds of the duration input, 5 to 600 minutes. *)
Theorem durations_within_input_bounds (st : session_state) :
  reachable sort_values st -> Forall duration_in_bounds (events st).
Proof.
  intros R.
  assert (I : store_inv st /\ Forall duration_in_bounds (events st)).
  { induction R as [|a st R [Inv IH] Ha].
    - split; [split|]; constructor.
    - split;
        [apply (run_action_inv sort_values sort_values_sorts); assumption|].
      destruct Inv as [W _].
      destruct a as [title d t dur notes | | idx]; simpl.
      + unfold exec, add_btn_handler.
        destruct (negb (str_truthy (strip title))); [exact IH|].
        simpl in Ha.
        apply andb_true_iff in Ha as [Ha H2].
        apply andb_true_iff in Ha as [Ha H1].
        apply Z.leb_le in H1, H2.
        simpl. apply Forall_app. split; [exact IH|].
        constructor; [|constructor]. unfold duration_in_bounds. simpl. lia.
      + constructor.
      + unfold exec, bind.
        rewrite (events_df_eval sort_values sort_values_sorts).
        destruct (df_empty _); [exact IH|].
        rewrite del_btn_handler_events
          by (apply (sort_values_Forall sort_values sort_values_sorts);
              eapply Forall_impl; [apply event_wf_key | exact W]).
        destruct ((0 <=? idx) && _); simpl; [|exact IH].
        apply remove_at_Forall.
        now apply (sort_values_Forall sort_values sort_values_sorts). }
  apply I.
Qed.

(** X11: adding an event and then deleting the row it shows in gives
    back the events the store held before, each of them unchanged,
    and the same [count]. *)
Theorem add_then_delete_restores (st : session_state) (title : str)
    (d : date) (t : time) (duration : Z) (notes : str) (i : nat) :
  reachable sort_values st ->
  action_ok (PressAdd title d t duration notes) = true ->
  blank title = false ->
  nth_error
    (List.map drop_SortDT
       (sort_values
          (events (exec (add_btn_handler title d t duration notes) st))))
    i
  = Some (new_row title d t duration notes) ->
  exists st2,
    deleteAt sort_values (Z.of_nat i)
      (exec (add_btn_handler title d t duration notes) st)
    = (inl (st_success (lit "Deleted!")), st2)
    /\ Permutation (events st2) (events st)
    /\ count st2 = count st.
Proof.
  intros R Ha B N.
  set (a := PressAdd title d t duration notes) in *.
  assert (R1 : reachable sort_values (exec (run_action sort_values a) st))
    by now apply reach_step.
  simpl in R1.
  set (st1 := exec (add_btn_handler title d t duration notes) st) in *.
  set (e := {| Title := strip title; Date := isoformat d;
               Time := strftime_HM t; Duration_min := duration;
               Notes := strip notes; SortDT := combine d t |}).
  assert (E1 : events st1 = events st ++ [e])
    by now apply add_btn_handler_events.
  apply (reachable_inv sort_values sort_values_sorts) in R1.
  destruct R1 as [W1 _].
  assert (K1 : Forall key_recoverable (sort_values (events st1))).
  { apply (sort_values_Forall sort_values sort_values_sorts).
    eapply Forall_impl; [apply event_wf_key | exact W1]. }
  rewrite nth_error_map in N.
  destruct (nth_error (sort_values (events st1)) i) as [e'|] eqn:N';
    [|discriminate].
  simpl in N.
  assert (D : drop_SortDT e' = drop_SortDT e)
    by (change (drop_SortDT e) with (new_row title d t duration notes);
        congruence).
  clear N.
  assert (Ke' : key_recoverable e').
  { rewrite Forall_forall in K1. apply K1. eapply nth_error_In. exact N'. }
  assert (Ke : key_recoverable e).
  { apply event_wf_key. rewrite Forall_forall in W1. apply W1.
    rewrite E1. apply in_or_app. right. now left. }
  assert (Eq : e' = e).
  { unfold key_recoverable in Ke, Ke'.
    rewrite D, Ke in Ke'. injection Ke' as K.
    destruct e' as [T1 D1 Ti1 Du1 N1 S1]. unfold drop_SortDT in D.
    simpl in D, K. unfold e.
    injection D as -> -> -> -> ->. now rewrite <- K. }
  subst e'.
  assert (Lt : (i < List.length (events st1))%nat).
  { rewrite <- (sort_values_length sort_values sort_values_sorts).
    apply nth_error_Some. congruence. }
  pose proof (deleteAt_eval sort_values sort_values_sorts st1 (Z.of_nat i) W1)
    as Del.
  replace ((0 <=? Z.of_nat i) && (Z.of_nat i <? count st1)) with true in Del
    by (symmetry; apply andb_true_iff; split;
        [apply Z.leb_le | apply Z.ltb_lt]; unfold count; lia).
  rewrite Nat2Z.id in Del.
  eexists. split; [exact Del|]. simpl.
  assert (P : Permutation (remove_at i (sort_values (events st1)))
                (events st)).
  { apply (Permutation_cons_inv (a := e)).
    rewrite <- (nth_error_remove_at i _ e N').
    rewrite (proj1 (sort_values_sorts (events st1))), E1.
    apply Permutation_sym, Permutation_cons_append. }
  split; [exact P|].
  unfold count. simpl. now rewrite (Permutation_length P).
Qed.

(** X12: an event added for a date shows in the day view of that date
    and in the day view of no other date. *)
Theorem added_event_on_its_day_only (st : session_state) (title : str)
    (d d' : date) (t : time) (duration : Z) (notes : str) :
  blank title = false -> date_ok d = true -> date_ok d' = true ->
  exists df_d',
    listForDate sort_values d'
      (exec (add_btn_handler title d t duration notes) st)
    = (inl df_d', exec (add_btn_handler title d t duration notes) st)
    /\ (In (new_row title d t duration notes) df_d' <-> d' = d).
Proof.
  intros B Hd Hd'.
  set (st1 := exec (add_btn_handler title d t duration notes) st).
  set (e := {| Title := strip title; Date := isoformat d;
               Time := strftime_HM t; Duration_min := duration;
               Notes := strip notes; SortDT := combine d t |}).
  assert (E1 : events st1 = events st ++ [e])
    by now apply add_btn_handler_events.
  unfold listForDate, bind.
  rewrite (events_df_eval sort_values sort_values_sorts).
  eexists. split; [reflexivity|].
  rewrite df_day_filter, filter_In. split.
  - intros [_ H]. apply str_eqb_eq in H. simpl in H.
    symmetry. now apply isoformat_inj.
  - intros ->. split.
    + apply in_map_iff. exists e. split; [reflexivity|].
      eapply Permutation_in.
      * symmetry. apply (proj1 (sort_values_sorts _)).
      * rewrite E1. apply in_or_app. right. now left.
    + apply str_eqb_eq. reflexivity.
Qed.

(** X13: in every store of a session the day view holds only rows of
    the chosen date, in non-decreasing order of time. *)
Theorem listForDate_in_time_order (st : session_state) (d : date) :
  reachable sort_values st ->
  exists df_d,
    listForDate sort_values d st = (inl df_d, st)
    /\ Forall (fun r => col_Date r = isoformat d) df_d
    /\ StronglySorted row_le df_d.
Proof.
  intros R. apply (reachable_inv sort_values sort_values_sorts) in R.
  destruct R as [W _].
  unfold listForDate, bind.
  rewrite (events_df_eval sort_values sort_values_sorts).
  eexists. split; [reflexivity|]. rewrite df_day_filter. split.
  - apply Forall_forall. intros r Hr. apply filter_In in Hr as [_ Hr].
    now apply str_eqb_eq.
  - apply filter_StronglySorted, StronglySorted_rows.
    + apply (sort_values_Forall sort_values sort_values_sorts).
      eapply Forall_impl; [apply event_wf_key | exact W].
    + apply (proj2 (sort_values_sorts _)).
Qed.

(** X17: in every store of a session the listing holds as many rows
    as the store holds events, the rows of the stored events and no
    other, in non-decreasing order of (date, time), and the store is
    as before. *)
Theorem listing_shows_every_event_in_order (st : session_state) :
  reachable sort_values st ->
  exists df,
    events_df sort_values st = (inl df, st)
    /\ Z.of_nat (List.length df) = count st
    /\ (forall r, In r df <-> In r (List.map drop_SortDT (events st)))
    /\ StronglySorted row_le df.
Proof.
  intros R. apply (reachable_inv sort_values sort_values_sorts) in R.
  destruct R as [W _].
  destruct (sort_values_sorts (events st)) as [P S].
  eexists. split; [apply (events_df_eval sort_values sort_values_sorts)|].
  split; [|split].
  - unfold count. now rewrite length_map, (Permutation_length P).
  - intros r. split; apply Permutation_in.
    + now apply Permutation_map.
    + now apply Permutation_map, Permutation_sym.
  - apply StronglySorted_rows; [|exact S].
    apply (sort_values_Forall sort_values sort_values_sorts).
    eapply Forall_impl; [apply event_wf_key | exact W].
Qed.

End SchedulerMore.

(** X14: [add_event] with any valid date and time, seconds allowed,
    keeps the given datetime as the sort key, while the datetime the
    delete handler rebuilds from the stored strings is the given one
    cut to the minute. *)
Theorem add_event_key_to_the_minute (st : session_state) (title : str)
    (d : date) (t : time) (duration : Z) (notes : str) :
  date_ok d = true -> time_ok t = true ->
  exists e,
    add_event title d t duration notes st
    = (inl tt, mkState (events st ++ [e]))
    /\ drop_SortDT e = new_row title d t duration notes
    /\ SortDT e = combine d t
    /\ row_datetime (drop_SortDT e) = Some (combine d (to_the_minute t)).
Proof.
  intros Hd Ht. eexists. split; [reflexivity|].
  split; [reflexivity|]. split; [reflexivity|].
  apply (fromisoformat_roundtrip d (to_the_minute t)); [exact Hd|].
  unfold time_input_ok, time_ok, to_the_minute in *. simpl.
  repeat (apply andb_true_iff in Ht; destruct Ht as [Ht ?]).
  repeat (apply andb_true_iff; split); auto.
Qed.

(** X15: the title and the notes [add_event] stores are the given
    ones with nothing but whitespace taken off at the two ends, and
    storing a stored text again changes nothing. *)
Theorem add_event_trims_only_the_ends (st : session_state) (title : str)
    (d : date) (t : time) (duration : Z) (notes : str) :
  exists e,
    events (exec (add_event title d t duration notes) st)
    = events st ++ [e]
    /\ (exists p q, title = p ++ Title e ++ q
                    /\ blank p = true /\ blank q = true)
    /\ (exists p q, notes = p ++ Notes e ++ q
                    /\ blank p = true /\ blank q = true)
    /\ strip (Title e) = Title e /\ strip (Notes e) = Notes e.
Proof.
  eexists. split; [reflexivity|]. simpl.
  split; [apply strip_between_blanks|].
  split; [apply strip_between_blanks|].
  split; apply strip_idempotent.
Qed.

(* ================================================================= *)
(** * Further instances on the store of two events *)

Lemma delete_button_never_raises_witness :
  exists n st',
    run_action stable_sort (PressDelete 1) two_events = (inl n, st')
    /\ (List.map drop_SortDT (stable_sort (events two_events)) = [] ->
        n = st_info (lit "No events yet.") /\ st' = two_events)
    /\ (List.map drop_SortDT (stable_sort (events two_events)) <> [] ->
        n = st_success (lit "Deleted!")
        /\ count st' = count two_events - 1).
Proof.
  apply (delete_button_never_raises stable_sort stable_sort_sorts
           two_events
           (List.map drop_SortDT (stable_sort (events two_events))) 1).
  - apply run_actions_reachable; [reflexivity | constructor].
  - reflexivity.
  - reflexivity.
Defined.

Lemma deleteAt_keeps_the_others_witness :
  exists e st',
    nth_error (stable_sort (events two_events)) (Z.to_nat 0) = Some e
    /\ deleteAt stable_sort 0 two_events
       = (inl (st_success (lit "Deleted!")), st')
    /\ Permutation (events two_events) (e :: events st')
    /\ StronglySorted le_SortDT (events st').
Proof.
  apply (deleteAt_keeps_the_others stable_sort stable_sort_sorts
           two_events 0).
  - apply run_actions_reachable; [reflexivity | constructor].
  - split; [lia | reflexivity].
Defined.

Lemma durations_within_input_bounds_witness :
  Forall duration_in_bounds (events two_events).
Proof.
  apply (durations_within_input_bounds stable_sort stable_sort_sorts
           two_events).
  apply run_actions_reachable; [reflexivity | constructor].
Defined.

Lemma add_then_delete_restores_witness :
  exists st2,
    deleteAt stable_sort (Z.of_nat 0)
      (exec (add_btn_handler (lit " Gym") pi_day (mktime 8 0 0 0) 45 [])
            two_events)
    = (inl (st_success (lit "Deleted!")), st2)
    /\ Permutation (events st2) (events two_events)
    /\ count st2 = count two_events.
Proof.
  apply (add_then_delete_restores stable_sort stable_sort_sorts two_events
           (lit " Gym") pi_day (mktime 8 0 0 0) 45 [] 0%nat).
  - apply run_actions_reachable; [reflexivity | constructor].
  - reflexivity.
  - reflexivity.
  - reflexivity.
Defined.

Lemma added_event_on_its_day_only_witness :
  exists df_d',
    listForDate stable_sort (mkdate 2025 3 15)
      (exec (add_btn_handler (lit "Gym") pi_day nine 45 []) two_events)
    = (inl df_d',
       exec (add_btn_handler (lit "Gym") pi_day nine 45 []) two_events)
    /\ (In (new_row (lit "Gym") pi_day nine 45 []) df_d'
        <-> mkdate 2025 3 15 = pi_day).
Proof.
  apply (added_event_on_its_day_only stable_sort stable_sort_sorts
           two_events (lit "Gym") pi_day (mkdate 2025 3 15) nine 45 []).
  - reflexivity.
  - reflexivity.
  - reflexivity.
Defined.

Lemma listForDate_in_time_order_witness :
  exists df_d,
    listForDate stable_sort pi_day two_events = (inl df_d, two_events)
    /\ Forall (fun r => col_Date r = isoformat pi_day) df_d
    /\ StronglySorted row_le df_d.
Proof.
  apply (listForDate_in_time_order stable_sort stable_sort_sorts
           two_events pi_day).
  apply run_actions_reachable; [reflexivity | constructor].
Defined.

Lemma add_event_key_to_the_minute_witness :
  exists e,
    add_event (lit "A") pi_day (mktime 9 0 30 0) 30 [] init_state
    = (inl tt, mkState (events init_state ++ [e]))
    /\ drop_SortDT e = new_row (lit "A") pi_day (mktime 9 0 30 0) 30 []
    /\ SortDT e = combine pi_day (mktime 9 0 30 0)
    /\ row_datetime (drop_SortDT e)
       = Some (combine pi_day (to_the_minute (mktime 9 0 30 0))).
Proof.
  apply (add_event_key_to_the_minute init_state (lit "A") pi_day
           (mktime 9 0 30 0) 30 []).
  - reflexivity.
  - reflexivity.
Defined.

Lemma listing_shows_every_event_in_order_witness :
  exists df,
    events_df stable_sort two_events = (inl df, two_events)
    /\ Z.of_nat (List.length df) = count two_events
    /\ (forall r, In r df
                  <-> In r (List.map drop_SortDT (events two_events)))
    /\ StronglySorted row_le df.
Proof.
  apply (listing_shows_every_event_in_order stable_sort stable_sort_sorts
           two_events).
  apply run_actions_reachable; [reflexivity | constructor].
Defined.

(* ================================================================= *)
(** * The score of the code and the exact score *)

Lemma in_steps (lo n : nat) (k : Z) :
  Z.of_nat lo <= k < Z.of_nat lo + Z.of_nat n ->
  In k (List.map Z.of_nat (seq lo n)).
Proof.
  intros H. apply in_map_iff. exists (Z.to_nat k). split; [lia|].
  apply in_seq. lia.
Qed.

Lemma agree_at_every_step :
  forallb (fun a =>
    forallb (fun b =>
      forallb (fun w =>
        forallb (fun c => agree_at a b w c) minute_steps)
        workload_steps)
      hour_steps)
    hour_steps = true.
Proof. vm_compute. reflexivity. Qed.

(** X16: at every step of the four sliders the score the code
    computes in binary64 is the score of the exact formula: no
    operation rounds there, and [round] never fails. *)
Theorem binary64_score_is_exact_on_sliders (a b w c : Z) :
  0 <= a <= 20 -> 0 <= b <= 20 -> 1 <= w <= 5 -> 0 <= c <= 24 ->
  predict_productivity_binary64
    (slider_hours_binary64 a) (slider_hours_binary64 b) w (slider_minutes c)
  = Some (predict_productivity (slider_hours a) (slider_hours b) w
            (slider_minutes c)).
Proof.
  intros Ha Hb Hw Hc.
  assert (Ia : In a hour_steps) by (apply (in_steps 0 21); simpl; lia).
  assert (Ib : In b hour_steps) by (apply (in_steps 0 21); simpl; lia).
  assert (Iw : In w workload_steps) by (apply (in_steps 1 5); simpl; lia).
  assert (Ic : In c minute_steps) by (apply (in_steps 0 25); simpl; lia).
  pose proof (proj1 (forallb_forall _ _) agree_at_every_step a Ia) as G.
  apply (proj1 (forallb_forall _ _)) with (x := b) in G; [|exact Ib].
  apply (proj1 (forallb_forall _ _)) with (x := w) in G; [|exact Iw].
  apply (proj1 (forallb_forall _ _)) with (x := c) in G; [|exact Ic].
  unfold agree_at in G.
  destruct (predict_productivity_binary64 _ _ _ _) as [r|];
    [|discriminate G].
  apply Z.eqb_eq in G. now rewrite G.
Qed.

Lemma binary64_score_is_exact_on_sliders_witness :
  predict_productivity_binary64
    (slider_hours_binary64 13) (slider_hours_binary64 7) 4 (slider_minutes 3)
  = Some (predict_productivity (slider_hours 13) (slider_hours 7) 4
            (slider_minutes 3)).
Proof.
  apply (binary64_score_is_exact_on_sliders 13 7 4 3); lia.
Defined.

(** Off the steps of the sliders the two differ: at the float next to
    6 5/12 hours of sleep the code gives 52 where the exact formula
    gives 53. *)
Remark binary64_score_off_the_sliders :
  predict_productivity_binary64 0x1.9aaaaaaaaaaabp+2 3 3 0 = Some 52
  /\ float_value 0x1.9aaaaaaaaaaabp+2
     = Some (7224524402240171 # 1125899906842624)%Q
  /\ predict_productivity (7224524402240171 # 1125899906842624) 3 3 0 = 53.
Proof. repeat split; vm_compute; reflexivity. Qed.
